(** * push-notif-webview: the notification service and the WebView bridge

    A shallow embedding of [src/services/NotificationService.ts], of the
    message bridge of [src/components/WebViewBridge.tsx] and of the handlers
    of the home screen [src/app/(tabs)/index.tsx], with the properties of
    the bridge protocol stated and proved over it.

    The code is asynchronous but single-threaded: every [await] is modelled as
    sequencing, one handler running to completion before the next starts.
    Everything the code obtains from outside (the OS notification service,
    the Expo constants, [fetch], [JSON.parse]) is read from a [World] record,
    one record per top-level call, so that two calls may see different
    answers. *)

From Stdlib Require Import String List Bool Arith Lia.
Import ListNotations.
Open Scope string_scope.

Set Implicit Arguments.

Arguments String.eqb : simpl never.

(** ** JavaScript values *)

Module Js.

(** The values [JSON.parse] can return, and [undefined].  A number is kept
    as the text [Number.prototype.toString] gives it (the only operations the
    code applies to a number are [String(...)] and a truthiness test).  An
    object is the list of its own properties; a key occurs at most once in
    what the parser returns, and [prop] takes the first occurrence. *)
#[warnings="-register-all"]
Inductive Value : Type :=
| Undefined
| Null
| Boolean (b : bool)
| Number (text : string)
| Str (s : string)
| Array (items : list Value)
| Object (props : list (string * Value)).

(** A thrown value: an instance of [Error] with its [message], or anything
    else ([throw] accepts every value). *)
Inductive Thrown : Type :=
| Error (message : string)
| NonError (v : Value).

(** How a call completes. *)
Inductive Completion (A : Type) : Type :=
| Normal (a : A)
| Throw (e : Thrown).
Arguments Throw {A} e.

Fixpoint lookup (key : string) (props : list (string * Value)) : option Value :=
  match props with
  | [] => None
  | (k, v) :: rest => if String.eqb k key then Some v else lookup key rest
  end.

(** [v.key] for the keys the code reads ([type], [payload], [requestId],
    [title], [body], [data], [error]): none of them is on a prototype or is an
    array index, so only an object's own property can be found.  [None] is
    the TypeError of reading a property of [null] or [undefined]. *)
Definition prop (v : Value) (key : string) : option Value :=
  match v with
  | Undefined | Null => None
  | Object props =>
      Some (match lookup key props with Some x => x | None => Undefined end)
  | _ => Some Undefined
  end.

(** [key in v], for [v] with [typeof v === 'object'] and [v !== null]. *)
Definition has (key : string) (v : Value) : bool :=
  match v with
  | Object props => match lookup key props with Some _ => true | None => false end
  | _ => false
  end.

(** [v.key] where [v] is known not to be [null] or [undefined], and [v?.key]. *)
Definition field (v : Value) (key : string) : Value :=
  match prop v key with
  | Some x => x
  | None => Undefined
  end.

(** [v === 'literal'] *)
Definition is_string (v : Value) (literal : string) : bool :=
  match v with
  | Str s => String.eqb s literal
  | _ => false
  end.

(** A value of type [string | undefined] as a property of an object literal. *)
Definition optional (o : option string) : Value :=
  match o with
  | Some s => Str s
  | None => Undefined
  end.

(** [typeof v === 'object' && v !== null] *)
Definition is_object (v : Value) : bool :=
  match v with
  | Array _ | Object _ => true
  | _ => false
  end.

(** [Boolean(v)] *)
Definition truthy (v : Value) : bool :=
  match v with
  | Undefined | Null => false
  | Boolean b => b
  | Number text => negb (String.eqb text "0" || String.eqb text "NaN")
  | Str s => negb (String.eqb s "")
  | Array _ | Object _ => true
  end.

(** [a ?? b] *)
Definition nullish (a b : Value) : Value :=
  match a with
  | Undefined | Null => b
  | _ => a
  end.

(** [String(v)]; [None] is the TypeError of a value that cannot be
    converted.  An object is converted by the method [toString] it inherits,
    unless it has a member of that name: what [JSON.parse] puts there is not
    callable, the inherited [valueOf] returns the object itself, and the
    conversion throws.  An array is joined with commas, [null] and
    [undefined] elements giving the empty string and the others converted
    in turn, from the first on. *)
Fixpoint String_ (v : Value) : option string :=
  match v with
  | Undefined => Some "undefined"
  | Null => Some "null"
  | Boolean true => Some "true"
  | Boolean false => Some "false"
  | Number text => Some text
  | Str s => Some s
  | Array items =>
      (fix join (l : list Value) : option string :=
         match l with
         | [] => Some ""
         | x :: rest =>
             match match x with
                   | Undefined | Null => Some ""
                   | _ => String_ x
                   end with
             | None => None
             | Some first =>
                 match rest with
                 | [] => Some first
                 | _ :: _ =>
                     match join rest with
                     | None => None
                     | Some others => Some (first ++ "," ++ others)
                     end
                 end
             end
         end) items
  | Object props =>
      match lookup "toString" props with
      | Some _ => None
      | None => Some "[object Object]"
      end
  end.

(** What [throw new Error(v)] throws, for a [v] that is not [undefined]: the
    error whose message is [String(v)], or the TypeError (of message
    [typeError]) of that conversion. *)
Definition Error_of (typeError : string) (v : Value) : Thrown :=
  match String_ v with
  | Some message => Error message
  | None => Error typeError
  end.

(** A value of type [string | null | undefined] used as a condition. *)
Definition truthy_string (o : option string) : bool :=
  match o with
  | Some s => negb (String.eqb s "")
  | None => false
  end.

(** [a || b] on such values. *)
Definition or_string (a b : option string) : option string :=
  if truthy_string a then a else b.

(** Such a value inside a template literal. *)
Definition template (o : option string) : string :=
  match o with
  | Some s => s
  | None => "undefined"
  end.

(** Such a value as a property of an object literal. *)
Definition of_string (o : option string) : Value :=
  match o with
  | Some s => Str s
  | None => Null
  end.

(** The double quote, and a JSON string literal without escapes. *)
Definition dquote : string := String (Ascii.ascii_of_nat 34) EmptyString.
Definition quoted (s : string) : string := dquote ++ s ++ dquote.

Definition opt_eqb (o : option string) (s : string) : bool :=
  match o with
  | Some x => String.eqb x s
  | None => false
  end.

End Js.

(** ** The outside world *)

(** What [fetch] resolves to: [response.ok] and the outcome of
    [response.json()]. *)
Record Response : Type := {
  ok : bool;
  json : Js.Completion Js.Value
}.

(** The answers of everything outside the repository, as seen by one
    top-level call (no function below repeats an external call that has an
    effect; [JSON.parse] and the constants are pure). *)
Record World : Type := {
  (* expo-device, expo-constants, react-native, process.env *)
  Device_isDevice : bool;
  Constants_executionEnvironment : option string;
  Constants_appOwnership : option string;
  expoConfig_extra_eas_projectId : option string;
  easConfig_projectId : option string;
  env_EXPO_PROJECT_ID : option string;
  expoConfig_extra_backendUrl : option string;
  env_EXPO_PUBLIC_BACKEND_URL : option string;
  Platform_OS : string;
  (* expo-notifications *)
  getPermissionsAsync : Js.Completion string;
  requestPermissionsAsync : Js.Completion string;
  getDevicePushTokenAsync : Js.Completion string;
  setNotificationChannelAsync : Js.Completion unit;
  scheduleNotificationAsync : Js.Completion unit;
  (* the network: url and JSON body of a POST *)
  fetch : string -> Js.Value -> Js.Completion Response;
  (* the JavaScript engine: [None] is a SyntaxError *)
  JSON_parse : string -> option Js.Value;
  TypeError_destructure_null : string;
  TypeError_read_null : string;
  TypeError_to_primitive : string
}.

(** ** Observable effects *)

Inductive ConsoleLevel : Type := console_log | console_warn | console_error.

Inductive NativeCall : Type :=
| SetNotificationHandler
| GetPermissions
| RequestPermissions
| GetDevicePushToken
| SetNotificationChannel (name : string)
| ScheduleNotification (title body : string) (data : Js.Value)
| AddNotificationReceivedListener
| AddNotificationResponseReceivedListener
| RemoveSubscription
| WebViewReload.

(** [BridgeResponse] of WebViewBridge.tsx; an [Undefined] field is absent
    from the serialised message. *)
Record BridgeResponse : Type := {
  type : string;
  requestId : Js.Value;
  payload : Js.Value;
  error : option string
}.

Inductive Event : Type :=
| Console (level : ConsoleLevel) (text : string)
| Native (call : NativeCall)
| HttpPost (url : string) (body : Js.Value)
| PostMessage (message : BridgeResponse).

(** ** A monad for state, exceptions and effects *)

Record Run (S A : Type) : Type := {
  completion : Js.Completion A;
  final : S;
  events : list Event
}.

Definition M (S A : Type) : Type := World -> S -> Run S A.

Definition ret {S A} (a : A) : M S A :=
  fun _ s => {| completion := Js.Normal a; final := s; events := [] |}.

Definition throw {S A} (e : Js.Thrown) : M S A :=
  fun _ s => {| completion := Js.Throw e; final := s; events := [] |}.

Definition bind {S A B} (m : M S A) (k : A -> M S B) : M S B :=
  fun w s =>
    match m w s with
    | {| completion := Js.Normal a; final := s1; events := tr1 |} =>
        match k a w s1 with
        | {| completion := c; final := s2; events := tr2 |} =>
            {| completion := c; final := s2; events := tr1 ++ tr2 |}
        end
    | {| completion := Js.Throw e; final := s1; events := tr1 |} =>
        {| completion := Js.Throw e; final := s1; events := tr1 |}
    end.

(** [try { m } catch (e) { handler e }] *)
Definition try_catch {S A} (m : M S A) (handler : Js.Thrown -> M S A) : M S A :=
  fun w s =>
    match m w s with
    | {| completion := Js.Normal a; final := s1; events := tr1 |} =>
        {| completion := Js.Normal a; final := s1; events := tr1 |}
    | {| completion := Js.Throw e; final := s1; events := tr1 |} =>
        match handler e w s1 with
        | {| completion := c; final := s2; events := tr2 |} =>
            {| completion := c; final := s2; events := tr1 ++ tr2 |}
        end
    end.

Definition ask {S} : M S World :=
  fun w s => {| completion := Js.Normal w; final := s; events := [] |}.

Definition get {S} : M S S :=
  fun _ s => {| completion := Js.Normal s; final := s; events := [] |}.

Definition put {S} (s : S) : M S unit :=
  fun _ _ => {| completion := Js.Normal tt; final := s; events := [] |}.

Definition emit {S} (e : Event) : M S unit :=
  fun _ s => {| completion := Js.Normal tt; final := s; events := [e] |}.

(** The outcome of an awaited external call. *)
Definition await {S A} (c : Js.Completion A) : M S A :=
  match c with
  | Js.Normal a => ret a
  | Js.Throw e => throw e
  end.

Definition console {S} (level : ConsoleLevel) (text : string) : M S unit :=
  emit (Console level text).

Declare Scope monad_scope.
Delimit Scope monad_scope with monad.
Notation "x <- m ;; k" := (bind m (fun x => k))
  (at level 61, m at next level, right associativity) : monad_scope.
Notation "m ;; k" := (bind m (fun _ => k))
  (at level 61, right associativity) : monad_scope.
Open Scope monad_scope.

(** Projections of a trace. *)
Fixpoint posted (tr : list Event) : list BridgeResponse :=
  match tr with
  | [] => []
  | PostMessage m :: rest => m :: posted rest
  | _ :: rest => posted rest
  end.

Fixpoint http_posts (tr : list Event) : list (string * Js.Value) :=
  match tr with
  | [] => []
  | HttpPost url body :: rest => (url, body) :: http_posts rest
  | _ :: rest => http_posts rest
  end.

Fixpoint native_calls (tr : list Event) : list NativeCall :=
  match tr with
  | [] => []
  | Native c :: rest => c :: native_calls rest
  | _ :: rest => native_calls rest
  end.

Fixpoint console_output (tr : list Event) : list (ConsoleLevel * string) :=
  match tr with
  | [] => []
  | Console l t :: rest => (l, t) :: console_output rest
  | _ :: rest => console_output rest
  end.

(** The HTTP POST of [fetch(url, { method: 'POST', body: JSON.stringify(body) })]. *)
Definition post {S} (url : string) (body : Js.Value) : M S Response :=
  emit (HttpPost url body) ;;
  w <- ask ;;
  await (fetch w url body).

(** ** src/services/NotificationService.ts *)

Module NotificationService.

Record NotificationData : Type := {
  title : string;
  body : string;
  data : Js.Value
}.

(** The one field of the singleton. *)
Record State : Type := { expoPushToken : option string }.

Definition initial : State := {| expoPushToken := None |}.

Definition isRunningInExpoGo (w : World) : bool :=
  Js.opt_eqb (Constants_executionEnvironment w) "storeClient"
  || Js.opt_eqb (Constants_appOwnership w) "expo".

Definition resolveProjectId (w : World) : option string :=
  Js.or_string
    (Js.or_string (expoConfig_extra_eas_projectId w) (easConfig_projectId w))
    (env_EXPO_PROJECT_ID w).

Definition fallbackBackendUrl : string := "https://5fd5bd8a6a0c.ngrok-free.app".

Definition getBackendBaseUrl (w : World) : option string :=
  Js.or_string
    (Js.or_string (expoConfig_extra_backendUrl w) (env_EXPO_PUBLIC_BACKEND_URL w))
    (Some fallbackBackendUrl).

Definition noBackendUrl_token : string :=
  "No backend URL configured; skipping device token registration.".
Definition noBackendUrl_request : string :=
  "No backend URL configured; cannot request backend notification.".

(** The JSON bodies of the two backend requests. *)
Definition saveTokenBody (token : string) : Js.Value :=
  Js.Object [("name", Js.Str "User"); ("fcm_device_token", Js.Str token)].

Definition sendTokenToBackend (token : string) : M State unit :=
  w <- ask ;;
  let backendUrl := getBackendBaseUrl w in
  if negb (Js.truthy_string backendUrl) then
    console console_warn noBackendUrl_token
  else
    try_catch
      (post (Js.template backendUrl ++ "/save-token") (saveTokenBody token) ;;
       console console_log "Device token sent to backend")
      (fun _ => console console_error "Failed to send token to backend:").

Definition requestBackendToSendNotification (title body : string) : M State unit :=
  w <- ask ;;
  let backendUrl := getBackendBaseUrl w in
  if negb (Js.truthy_string backendUrl) then
    console console_warn noBackendUrl_request
  else
    try_catch
      (s <- get ;;
       post (Js.template backendUrl ++ "/send-notification")
            (Js.Object [("title", Js.Str title); ("body", Js.Str body);
                        ("token", Js.of_string (expoPushToken s))]) ;;
       console console_log "Request sent to backend to send notification")
      (fun _ => console console_error "Failed to request backend notification:").

Definition setupAndroidChannel : M State unit :=
  emit (Native (SetNotificationChannel "default")) ;;
  w <- ask ;;
  await (setNotificationChannelAsync w).

Definition registerForPushNotifications : M State (option string) :=
  w <- ask ;;
  if negb (Device_isDevice w) then
    console console_log "Push notifications only work on physical devices" ;;
    ret None
  else if isRunningInExpoGo w then
    console console_log "Expo Go detected. Remote push notifications are disabled in Expo Go; use a development build to test push notifications." ;;
    ret None
  else
    try_catch
      (emit (Native GetPermissions) ;;
       existingStatus <- await (getPermissionsAsync w) ;;
       finalStatus <-
         (if negb (String.eqb existingStatus "granted") then
            emit (Native RequestPermissions) ;;
            await (requestPermissionsAsync w)
          else ret existingStatus) ;;
       if negb (String.eqb finalStatus "granted") then
         console console_log "Permission to send push notifications denied" ;;
         ret None
       else
         let projectId := resolveProjectId w in
         if negb (Js.truthy_string projectId) then
           console console_warn "No EAS project ID found. Set it in app config (expo.extra.eas.projectId or EXPO_PROJECT_ID) to enable remote push notifications." ;;
           ret None
         else
           emit (Native GetDevicePushToken) ;;
           tokenData <- await (getDevicePushTokenAsync w) ;;
           put {| expoPushToken := Some tokenData |} ;;
           s <- get ;;
           (if Js.truthy_string (expoPushToken s) then
              console console_log "Native Push Token:" ;;
              sendTokenToBackend (Js.template (expoPushToken s))
            else ret tt) ;;
           (if String.eqb (Platform_OS w) "android" then setupAndroidChannel
            else ret tt) ;;
           console console_log "Expo Push Token:" ;;
           s <- get ;;
           ret (expoPushToken s))
      (fun _ =>
         console console_error "Error getting push notification token:" ;;
         ret None).

(** The constructor's [initializeNotifications]. *)
Definition initializeNotifications : M State unit :=
  emit (Native SetNotificationHandler) ;;
  registerForPushNotifications ;;
  ret tt.

(** [notificationData.data || {}] *)
Definition data_or_empty (d : Js.Value) : Js.Value :=
  if Js.truthy d then d else Js.Object [].

Definition sendLocalNotification (notificationData : NotificationData) : M State unit :=
  try_catch
    (emit (Native (ScheduleNotification (title notificationData)
                     (body notificationData)
                     (data_or_empty (data notificationData)))) ;;
     w <- ask ;;
     await (scheduleNotificationAsync w))
    (fun _ => console console_error "Error sending local notification:").

Definition read (v : Js.Value) (key : string) : M State Js.Value :=
  match Js.prop v key with
  | Some x => ret x
  | None => w <- ask ;; throw (Js.Error (TypeError_read_null w))
  end.

Definition sendPushNotification (notificationData : NotificationData) : M State unit :=
  s <- get ;;
  if negb (Js.truthy_string (expoPushToken s)) then
    console console_log "No push token available"
  else
    try_catch
      (response <- post "https://exp.host/--/api/v2/push/send"
                     (Js.Object [("to", Js.of_string (expoPushToken s));
                                 ("sound", Js.Str "default");
                                 ("title", Js.Str (title notificationData));
                                 ("body", Js.Str (body notificationData));
                                 ("data", data_or_empty (data notificationData))]) ;;
       await (json response) ;;
       console console_log "Push notification sent:")
      (fun _ => console console_error "Error sending push notification:").

Definition genericBackendFailure : string := "Failed to request backend notification".

Definition sendNotificationBody (s : State) (notificationData : NotificationData)
  : Js.Value :=
  Js.Object [("token", Js.of_string (expoPushToken s));
             ("title", Js.Str (title notificationData));
             ("body", Js.Str (body notificationData));
             ("data", data_or_empty (data notificationData))].

Definition sendPushNotificationViaBackend (notificationData : NotificationData)
  : M State unit :=
  s <- get ;;
  if negb (Js.truthy_string (expoPushToken s)) then
    console console_log "No push token available to send to backend"
  else
    w <- ask ;;
    let backendUrl := getBackendBaseUrl w in
    if negb (Js.truthy_string backendUrl) then
      console console_warn noBackendUrl_request
    else
      try_catch
        (response <- post (Js.template backendUrl ++ "/send-notification")
                       (sendNotificationBody s notificationData) ;;
         responseData <- await (json response) ;;
         (if negb (ok response) then
            err <- read responseData "error" ;;
            throw (Js.Error_of (TypeError_to_primitive w)
                     (if Js.truthy err then err
                      else Js.Str genericBackendFailure))
          else ret tt) ;;
         console console_log "Successfully requested backend to send notification:")
        (fun error =>
           console console_error "Error requesting backend to send notification:" ;;
           throw error).

Definition getExpoPushToken : M State (option string) :=
  s <- get ;;
  ret (expoPushToken s).

Definition addNotificationReceivedListener : M State unit :=
  emit (Native AddNotificationReceivedListener).

Definition addNotificationResponseReceivedListener : M State unit :=
  emit (Native AddNotificationResponseReceivedListener).

Definition removeNotificationSubscription : M State unit :=
  emit (Native RemoveSubscription).




End NotificationService.

(** ** The notification objects of expo-notifications *)

Module Notifications.

(** The parts of a [Notification] the code reads.  [title] and [body] are
    [string | null]; [data] is an object, [null] or [undefined];
    [date_toISOString] is the outcome of [new Date(notification.date).toISOString()],
    a RangeError when the date is not a valid time. *)
Record Notification : Type := {
  identifier : string;
  title : option string;
  body : option string;
  data : Js.Value;
  date_toISOString : Js.Completion string
}.

Record NotificationResponse : Type := {
  actionIdentifier : string;
  notification : Notification
}.

End Notifications.

(** ** src/components/WebViewBridge.tsx *)

Module WebViewBridge.

Import NotificationService.

(** The component's state, the ref to the WebView, and the service singleton
    the component imports. *)
Record State : Type := {
  service : NotificationService.State;
  isLoading : bool;
  isWebReady : bool;
  loadError : option string;
  webViewRef_current : bool  (* [webViewRef.current] is not null *)
}.

(** A method call on the imported singleton. *)
Definition call {A} (m : M NotificationService.State A) : M State A :=
  fun w h =>
    match m w (service h) with
    | {| completion := c; final := s; events := tr |} =>
        {| completion := c;
           final := {| service := s; isLoading := isLoading h;
                       isWebReady := isWebReady h; loadError := loadError h;
                       webViewRef_current := webViewRef_current h |};
           events := tr |}
    end.

Definition invalidPayload : string :=
  "Invalid notification payload received from web app".

(** [typeof v === 'string' ? v : String(v ?? '')]; [None] is the TypeError
    of [String]. *)
Definition coerce (v : Js.Value) : option string :=
  match v with
  | Js.Str s => Some s
  | _ => Js.String_ (Js.nullish v (Js.Str ""))
  end.

Definition toNotificationData (w : World) (payload : Js.Value)
  : Js.Completion NotificationData :=
  if Js.is_object payload && Js.has "title" payload && Js.has "body" payload then
    let title := Js.field payload "title" in
    let body := Js.field payload "body" in
    let data := Js.field payload "data" in
    match coerce title with
    | None => Js.Throw (Js.Error (TypeError_to_primitive w))
    | Some title =>
        match coerce body with
        | None => Js.Throw (Js.Error (TypeError_to_primitive w))
        | Some body =>
            Js.Normal {| title := title;
                         body := body;
                         data := if Js.is_object data then data else Js.Undefined |}
        end
    end
  else Js.Throw (Js.Error invalidPayload).

(** [webViewRef.current?.postMessage(JSON.stringify(message))] *)
Definition postToWeb (message : BridgeResponse) : M State unit :=
  h <- get ;;
  if webViewRef_current h then emit (PostMessage message) else ret tt.

Definition guardMessage (error : Js.Thrown) : string :=
  match error with
  | Js.Error message => message
  | Js.NonError _ => "Unexpected native error"
  end.

Definition withRequestGuard (handler : M State unit)
    (requestId errorContext : option string) : M State unit :=
  try_catch handler
    (fun error =>
       let message := guardMessage error in
       console console_error "Bridge request failed:" ;;
       postToWeb {| type := "ERROR";
                    requestId := Js.optional requestId;
                    error := Some message;
                    payload := Js.Object [("context", Js.optional errorContext)] |}).

Definition parsedRequestId (w : World) (raw : string) : option string :=
  match JSON_parse w raw with
  | Some parsed =>
      match Js.prop parsed "requestId" with
      | Some (Js.Str s) => Some s
      | _ => None
      end
  | None => None
  end.

Definition unparsable : string := "Unable to parse bridge payload from web view".

(** The arrow function [handleBridgeRequest] hands to [withRequestGuard]. *)
Definition bridgeRequest (data : string) : M State unit :=
  w <- ask ;;
  parsed <- match JSON_parse w data with
            | Some v => ret v
            | None => throw (Js.Error unparsable)
            end ;;
  match Js.prop parsed "type" with
  | None => throw (Js.Error (TypeError_destructure_null w))
  | Some type =>
      let payload := Js.field parsed "payload" in
      let requestId := Js.field parsed "requestId" in
      if Js.is_string type "REQUEST_PUSH_TOKEN" then
        currentToken <- call getExpoPushToken ;;
        token <- match currentToken with
                 | Some t => ret (Some t)
                 | None => call registerForPushNotifications
                 end ;;
        postToWeb {| type := "PUSH_TOKEN";
                     requestId := requestId;
                     payload := Js.Object [("token", Js.of_string token)];
                     error := None |}
      else if Js.is_string type "SEND_PUSH_VIA_BACKEND" then
        notificationData <- await (toNotificationData w payload) ;;
        call (sendPushNotificationViaBackend notificationData) ;;
        postToWeb {| type := "SUCCESS";
                     requestId := requestId;
                     payload := Js.Object [("action", type)];
                     error := None |}
      else if Js.is_string type "SEND_LOCAL_NOTIFICATION" then
        notificationData <- await (toNotificationData w payload) ;;
        call (sendLocalNotification notificationData) ;;
        postToWeb {| type := "SUCCESS";
                     requestId := requestId;
                     payload := Js.Object [("action", type)];
                     error := None |}
      else
        match Js.String_ type with
        | Some printed => throw (Js.Error ("Unknown bridge request type: " ++ printed))
        | None => throw (Js.Error (TypeError_to_primitive w))
        end
  end.

Definition handleBridgeRequest (data : string) : M State unit :=
  w <- ask ;;
  withRequestGuard (bridgeRequest data) (parsedRequestId w data)
    (Some "handleBridgeRequest").

(** The effect that subscribes the two listeners (lines 197-220). *)
Definition listenersEffect : M State unit :=
  call addNotificationReceivedListener ;;
  call addNotificationResponseReceivedListener.

(** The effect with dependencies [[isWebReady, postToWeb]] (lines 222-234);
    [postToWeb] never changes. *)
Definition readinessEffect : M State unit :=
  h <- get ;;
  if negb (isWebReady h) then ret tt
  else
    existingToken <- call getExpoPushToken ;;
    if Js.truthy_string existingToken then
      postToWeb {| type := "PUSH_TOKEN";
                   requestId := Js.Undefined;
                   payload := Js.Object [("token", Js.of_string existingToken)];
                   error := None |}
    else ret tt.

Definition setIsLoading (b : bool) : M State unit :=
  h <- get ;;
  put {| service := service h; isLoading := b; isWebReady := isWebReady h;
         loadError := loadError h; webViewRef_current := webViewRef_current h |}.

Definition setIsWebReady (b : bool) : M State unit :=
  h <- get ;;
  put {| service := service h; isLoading := isLoading h; isWebReady := b;
         loadError := loadError h; webViewRef_current := webViewRef_current h |}.

Definition setLoadError (e : option string) : M State unit :=
  h <- get ;;
  put {| service := service h; isLoading := isLoading h; isWebReady := isWebReady h;
         loadError := e; webViewRef_current := webViewRef_current h |}.

Definition handleLoadEnd : M State unit :=
  setIsLoading false ;;
  setIsWebReady true ;;
  setLoadError None.

Definition handleLoadError (error : Js.Value) : M State unit :=
  setIsLoading false ;;
  let message :=
    if Js.is_object error && Js.has "nativeEvent" error then
      match Js.field (Js.field error "nativeEvent") "description" with
      | Js.Str description => description
      | _ => "Failed to load embedded web app"
      end
    else "Failed to load embedded web app" in
  setLoadError (Some message).

Definition reloadWebView : M State unit :=
  setIsLoading true ;;
  setLoadError None ;;
  h <- get ;;
  if webViewRef_current h then emit (Native WebViewReload) else ret tt.

(** React after a handler has run: the component is rendered again, which
    mounts the WebView exactly when [loadError] is falsy, and an effect runs
    again when one of its dependencies differs from the previous render. *)
Definition commit (previous : State) : M State unit :=
  h <- get ;;
  put {| service := service h; isLoading := isLoading h; isWebReady := isWebReady h;
         loadError := loadError h;
         webViewRef_current := negb (Js.truthy_string (loadError h)) |} ;;
  if Bool.eqb (isWebReady previous) (isWebReady h) then ret tt
  else readinessEffect.

(** The first render: every effect runs. *)
Definition mount : M State unit :=
  h <- get ;;
  put {| service := service h; isLoading := true; isWebReady := false;
         loadError := None; webViewRef_current := true |} ;;
  listenersEffect ;;
  readinessEffect.

Inductive LoadEvent : Type :=
| LoadEnd
| LoadError (error : Js.Value)
| Reload.

Definition onLoadEvent (e : LoadEvent) : M State unit :=
  previous <- get ;;
  match e with
  | LoadEnd => handleLoadEnd
  | LoadError error => handleLoadError error
  | Reload => reloadWebView
  end ;;
  commit previous.

Fixpoint onLoadEvents (es : list LoadEvent) : M State unit :=
  match es with
  | [] => ret tt
  | e :: rest => onLoadEvent e ;; onLoadEvents rest
  end.

(** *** The rest of the component *)

Definition DEFAULT_WEB_APP_URL : string := "http://192.168.43.81:5173".

(** [resolveWebAppUrl], as a function of [expoConfig?.extra?.webAppUrl] and
    of [process.env.EXPO_PUBLIC_WEB_APP_URL] ([None] is [undefined]); the
    operator is [??]. *)
Definition resolveWebAppUrl (config env : option string) : string :=
  match config with
  | Some url => url
  | None =>
      match env with
      | Some url => url
      | None => DEFAULT_WEB_APP_URL
      end
  end.

Definition serializeNotification (notification : Notifications.Notification)
  : Js.Completion Js.Value :=
  match Notifications.date_toISOString notification with
  | Js.Normal date =>
      Js.Normal
        (Js.Object
           [("id", Js.Str (Notifications.identifier notification));
            ("title", Js.of_string (Notifications.title notification));
            ("body", Js.of_string (Notifications.body notification));
            ("data", Js.nullish (Notifications.data notification) (Js.Object []));
            ("date", Js.Str date)])
  | Js.Throw e => Js.Throw e
  end.

Definition serializeNotificationResponse (response : Notifications.NotificationResponse)
  : Js.Completion Js.Value :=
  match serializeNotification (Notifications.notification response) with
  | Js.Normal notification =>
      Js.Normal
        (Js.Object
           [("actionIdentifier", Js.Str (Notifications.actionIdentifier response));
            ("notification", notification)])
  | Js.Throw e => Js.Throw e
  end.

(** The two listeners the component subscribes (lines 198-214). *)
Definition notificationReceived (notification : Notifications.Notification)
  : M State unit :=
  payload <- await (serializeNotification notification) ;;
  postToWeb {| type := "NOTIFICATION_RECEIVED";
               requestId := Js.Undefined;
               payload := payload;
               error := None |}.

Definition notificationResponseReceived (response : Notifications.NotificationResponse)
  : M State unit :=
  payload <- await (serializeNotificationResponse response) ;;
  postToWeb {| type := "NOTIFICATION_RESPONSE";
               requestId := Js.Undefined;
               payload := payload;
               error := None |}.

(** The cleanup of the listeners effect (lines 216-219). *)
Definition listenersCleanup : M State unit :=
  call removeNotificationSubscription ;;
  call removeNotificationSubscription.

(** What the component renders: the fallback screen with the text of
    [loadError], or the WebView; and the loading overlay. *)
Record View : Type := {
  fallback : option string;
  webView : bool;
  loadingOverlay : bool
}.

Definition render (h : State) : View :=
  {| fallback := if Js.truthy_string (loadError h) then loadError h else None;
     webView := negb (Js.truthy_string (loadError h));
     loadingOverlay := isLoading h && negb (Js.truthy_string (loadError h)) |}.

End WebViewBridge.

(** ** src/app/(tabs)/index.tsx *)

Module HomeScreen.

Import NotificationService.

(** The state of the screen, the alerts it has shown (latest first), the
    two subscriptions of its effect, and the service singleton. *)
Record State : Type := {
  service : NotificationService.State;
  expoPushToken : option string;
  notifications : list Notifications.Notification;
  isLoading : bool;
  notificationTitle : string;
  notificationBody : string;
  notificationListener : bool;
  responseListener : bool;
  alerts : list (string * string)
}.

Definition call {A} (m : M NotificationService.State A) : M State A :=
  fun w h =>
    match m w (service h) with
    | {| completion := c; final := s; events := tr |} =>
        {| completion := c;
           final := {| service := s; expoPushToken := expoPushToken h;
                       notifications := notifications h; isLoading := isLoading h;
                       notificationTitle := notificationTitle h;
                       notificationBody := notificationBody h;
                       notificationListener := notificationListener h;
                       responseListener := responseListener h;
                       alerts := alerts h |};
           events := tr |}
    end.

(** [try { m } finally { f }] *)
Definition try_finally {S A} (m : M S A) (f : M S unit) : M S A :=
  fun w s =>
    match m w s with
    | {| completion := c; final := s1; events := tr1 |} =>
        match f w s1 with
        | {| completion := Js.Normal _; final := s2; events := tr2 |} =>
            {| completion := c; final := s2; events := tr1 ++ tr2 |}
        | {| completion := Js.Throw e; final := s2; events := tr2 |} =>
            {| completion := Js.Throw e; final := s2; events := tr1 ++ tr2 |}
        end
    end.

Definition setExpoPushToken (token : option string) : M State unit :=
  h <- get ;;
  put {| service := service h; expoPushToken := token;
         notifications := notifications h; isLoading := isLoading h;
         notificationTitle := notificationTitle h;
         notificationBody := notificationBody h;
         notificationListener := notificationListener h;
         responseListener := responseListener h;
         alerts := alerts h |}.

Definition setNotifications
    (update : list Notifications.Notification -> list Notifications.Notification)
  : M State unit :=
  h <- get ;;
  put {| service := service h; expoPushToken := expoPushToken h;
         notifications := update (notifications h); isLoading := isLoading h;
         notificationTitle := notificationTitle h;
         notificationBody := notificationBody h;
         notificationListener := notificationListener h;
         responseListener := responseListener h;
         alerts := alerts h |}.

Definition setIsLoading (b : bool) : M State unit :=
  h <- get ;;
  put {| service := service h; expoPushToken := expoPushToken h;
         notifications := notifications h; isLoading := b;
         notificationTitle := notificationTitle h;
         notificationBody := notificationBody h;
         notificationListener := notificationListener h;
         responseListener := responseListener h;
         alerts := alerts h |}.

Definition setListeners (received response : bool) : M State unit :=
  h <- get ;;
  put {| service := service h; expoPushToken := expoPushToken h;
         notifications := notifications h; isLoading := isLoading h;
         notificationTitle := notificationTitle h;
         notificationBody := notificationBody h;
         notificationListener := received;
         responseListener := response;
         alerts := alerts h |}.

(** [Alert.alert(title, message)] *)
Definition Alert_alert (title message : string) : M State unit :=
  h <- get ;;
  put {| service := service h; expoPushToken := expoPushToken h;
         notifications := notifications h; isLoading := isLoading h;
         notificationTitle := notificationTitle h;
         notificationBody := notificationBody h;
         notificationListener := notificationListener h;
         responseListener := responseListener h;
         alerts := (title, message) :: alerts h |}.

(** The listeners of the screen (lines 34-49). *)
Definition notificationReceived (notification : Notifications.Notification)
  : M State unit :=
  console console_log "Notification received:" ;;
  setNotifications (fun prev => notification :: prev).

Definition notificationResponseReceived (response : Notifications.NotificationResponse)
  : M State unit :=
  console console_log "Notification response:" ;;
  Alert_alert "Notification Tapped"
    ("You tapped: "
     ++ match Notifications.title (Notifications.notification response) with
        | Some title => title
        | None => "null"
        end).

(** The effect of the first render (lines 25-57). *)
Definition initializeNotifications : M State unit :=
  try_catch
    (token <- call registerForPushNotifications ;;
     setExpoPushToken token ;;
     call addNotificationReceivedListener ;;
     h <- get ;;
     setListeners true (responseListener h) ;;
     call addNotificationResponseReceivedListener ;;
     h <- get ;;
     setListeners (notificationListener h) true)
    (fun _ =>
       console console_error "Error initializing notifications:" ;;
       Alert_alert "Error" "Failed to initialize notifications").

(** Its cleanup (lines 59-66). *)
Definition cleanup : M State unit :=
  h <- get ;;
  (if notificationListener h then call removeNotificationSubscription else ret tt) ;;
  (if responseListener h then call removeNotificationSubscription else ret tt).

(** The press handler (lines 68-93); [timestamp] is [new Date().toISOString()]. *)
Definition sendPushNotification (timestamp : string) : M State unit :=
  h <- get ;;
  if negb (Js.truthy_string (expoPushToken h)) then
    Alert_alert "Error" "No push token available. Make sure you have permissions."
  else
    setIsLoading true ;;
    try_finally
      (try_catch
         (w <- ask ;;
          call (sendPushNotificationViaBackend
                  {| title := notificationTitle h;
                     body := notificationBody h;
                     data := Js.Object [("type", Js.Str "push-backend");
                                        ("platform", Js.Str (Platform_OS w));
                                        ("timestamp", Js.Str timestamp)] |}))
         (fun _ => console console_error "Error sending push notification via backend:"))
      (setIsLoading false).

Definition clearNotifications : M State unit :=
  setNotifications (fun _ => []).

Definition getPlatformInfo (w : World) : string :=
  if String.eqb (Platform_OS w) "ios" then "iOS" else "Android".

(** The button is disabled while sending and without a token (line 152). *)
Definition sendDisabled (h : State) : bool :=
  isLoading h || negb (Js.truthy_string (expoPushToken h)).

End HomeScreen.

(** * Vocabulary of the statements, and sample inputs *)

(** The conditions under which registration gives up. *)
Inductive SoftFailure (w : World) : Prop :=
| NotPhysicalDevice :
    Device_isDevice w = false -> SoftFailure w
| ExpoGo :
    NotificationService.isRunningInExpoGo w = true -> SoftFailure w
| PermissionDenied (existing requested : string) :
    getPermissionsAsync w = Js.Normal existing -> existing <> "granted" ->
    requestPermissionsAsync w = Js.Normal requested -> requested <> "granted" ->
    SoftFailure w
| NoProjectId :
    Js.truthy_string (NotificationService.resolveProjectId w) = false ->
    SoftFailure w
| GetPermissionsFails (e : Js.Thrown) :
    getPermissionsAsync w = Js.Throw e -> SoftFailure w
| RequestPermissionsFails (existing : string) (e : Js.Thrown) :
    getPermissionsAsync w = Js.Normal existing -> existing <> "granted" ->
    requestPermissionsAsync w = Js.Throw e -> SoftFailure w
| GetDevicePushTokenFails (e : Js.Thrown) :
    getDevicePushTokenAsync w = Js.Throw e -> SoftFailure w
| SetNotificationChannelFails (e : Js.Thrown) :
    Platform_OS w = "android" ->
    setNotificationChannelAsync w = Js.Throw e -> SoftFailure w.

(** The backend request of [sendPushNotificationViaBackend]. *)
Definition sendNotificationUrl (w : World) : string :=
  Js.template (NotificationService.getBackendBaseUrl w) ++ "/send-notification".

(** The ERROR response of the request guard. *)
Definition errorResponse (requestId : option string) (message : string)
  : BridgeResponse :=
  {| type := "ERROR";
     requestId := Js.optional requestId;
     payload := Js.Object [("context", Js.Str "handleBridgeRequest")];
     error := Some message |}.

(** The unsolicited PUSH_TOKEN message of the readiness handshake. *)
Definition unsolicitedToken (token : string) : BridgeResponse :=
  {| type := "PUSH_TOKEN";
     requestId := Js.Undefined;
     payload := Js.Object [("token", Js.Str token)];
     error := None |}.

Definition isLoadEnd (e : WebViewBridge.LoadEvent) : bool :=
  match e with
  | WebViewBridge.LoadEnd => true
  | _ => false
  end.

Module Sample.

(** Three messages of the web app, as text and as [JSON.parse] reads them. *)
Definition member (key value : string) : string :=
  Js.quoted key ++ ":" ++ value.

Definition raw_payload : string :=
  "{" ++ member "title" (Js.quoted "T") ++ "," ++ member "body" (Js.quoted "B") ++ "}".

Definition raw_request (type requestId payload : string) : string :=
  "{" ++ member "type" (Js.quoted type) ++ ","
      ++ member "requestId" (Js.quoted requestId) ++ ","
      ++ member "payload" payload ++ "}".

Definition request (type requestId : string) (payload : Js.Value) : Js.Value :=
  Js.Object [("type", Js.Str type); ("requestId", Js.Str requestId);
             ("payload", payload)].

Definition payload : Js.Value :=
  Js.Object [("title", Js.Str "T"); ("body", Js.Str "B")].

(** A payload without [body]. *)
Definition raw_title_only : string := "{" ++ member "title" (Js.quoted "T") ++ "}".
Definition title_only : Js.Value := Js.Object [("title", Js.Str "T")].

Definition raw_send_push : string := raw_request "SEND_PUSH_VIA_BACKEND" "r1" raw_payload.
Definition raw_send_local_bad : string :=
  raw_request "SEND_LOCAL_NOTIFICATION" "r2" raw_title_only.
Definition raw_request_token : string := raw_request "REQUEST_PUSH_TOKEN" "r3" "null".
Definition raw_send_local : string := raw_request "SEND_LOCAL_NOTIFICATION" "r4" raw_payload.
Definition raw_unknown : string := raw_request "FOO" "r5" "null".

Definition parse (raw : string) : option Js.Value :=
  if String.eqb raw raw_send_push then
    Some (request "SEND_PUSH_VIA_BACKEND" "r1" payload)
  else if String.eqb raw raw_send_local_bad then
    Some (request "SEND_LOCAL_NOTIFICATION" "r2" title_only)
  else if String.eqb raw raw_request_token then
    Some (request "REQUEST_PUSH_TOKEN" "r3" Js.Null)
  else if String.eqb raw raw_send_local then
    Some (request "SEND_LOCAL_NOTIFICATION" "r4" payload)
  else if String.eqb raw raw_unknown then
    Some (request "FOO" "r5" Js.Null)
  else if String.eqb raw "null" then Some Js.Null
  else None.

(** A physical Android device with permissions granted and a project id,
    on which the OS issues [token] and the backend answers [backend]. *)
Definition world (token : string) (backend : Js.Completion Response) : World :=
  {| Device_isDevice := true;
     Constants_executionEnvironment := Some "bare";
     Constants_appOwnership := None;
     expoConfig_extra_eas_projectId := Some "project";
     easConfig_projectId := None;
     env_EXPO_PROJECT_ID := None;
     expoConfig_extra_backendUrl := None;
     env_EXPO_PUBLIC_BACKEND_URL := None;
     Platform_OS := "android";
     getPermissionsAsync := Js.Normal "granted";
     requestPermissionsAsync := Js.Normal "granted";
     getDevicePushTokenAsync := Js.Normal token;
     setNotificationChannelAsync := Js.Normal tt;
     scheduleNotificationAsync := Js.Normal tt;
     fetch := fun _ _ => backend;
     JSON_parse := parse;
     TypeError_destructure_null := "Cannot destructure property of null";
     TypeError_read_null := "Cannot read property of null";
     TypeError_to_primitive := "Cannot convert object to primitive value" |}.

Definition accepted : Js.Completion Response :=
  Js.Normal {| ok := true; json := Js.Normal (Js.Object [("success", Js.Boolean true)]) |}.

(** A 2xx answer and a 502 answer whose bodies are not JSON. *)
Definition not_json : Js.Thrown := Js.Error "JSON Parse error: Unexpected token: <".
Definition html_502 : Js.Completion Response :=
  Js.Normal {| ok := false; json := Js.Throw not_json |}.

(** The same device as an emulator. *)
Definition emulator : World :=
  let w := world "token-A" accepted in
  {| Device_isDevice := false;
     Constants_executionEnvironment := Constants_executionEnvironment w;
     Constants_appOwnership := Constants_appOwnership w;
     expoConfig_extra_eas_projectId := expoConfig_extra_eas_projectId w;
     easConfig_projectId := easConfig_projectId w;
     env_EXPO_PROJECT_ID := env_EXPO_PROJECT_ID w;
     expoConfig_extra_backendUrl := expoConfig_extra_backendUrl w;
     env_EXPO_PUBLIC_BACKEND_URL := env_EXPO_PUBLIC_BACKEND_URL w;
     Platform_OS := Platform_OS w;
     getPermissionsAsync := getPermissionsAsync w;
     requestPermissionsAsync := requestPermissionsAsync w;
     getDevicePushTokenAsync := getDevicePushTokenAsync w;
     setNotificationChannelAsync := setNotificationChannelAsync w;
     scheduleNotificationAsync := scheduleNotificationAsync w;
     fetch := fetch w;
     JSON_parse := JSON_parse w;
     TypeError_destructure_null := TypeError_destructure_null w;
     TypeError_read_null := TypeError_read_null w;
     TypeError_to_primitive := TypeError_to_primitive w |}.

Definition registered (token : string) : NotificationService.State :=
  {| NotificationService.expoPushToken := Some token |}.

(** The bridge with its WebView mounted and loaded. *)
Definition bridge (s : NotificationService.State) : WebViewBridge.State :=
  {| WebViewBridge.service := s;
     WebViewBridge.isLoading := false;
     WebViewBridge.isWebReady := true;
     WebViewBridge.loadError := None;
     WebViewBridge.webViewRef_current := true |}.

Definition notification : NotificationService.NotificationData :=
  {| NotificationService.title := "T";
     NotificationService.body := "B";
     NotificationService.data := Js.Undefined |}.

End Sample.

(** The answer to REQUEST_PUSH_TOKEN. *)
Definition tokenResponse (requestId : Js.Value) (token : option string)
  : BridgeResponse :=
  {| type := "PUSH_TOKEN";
     requestId := requestId;
     payload := Js.Object [("token", Js.of_string token)];
     error := None |}.

(** String conversion as the specification words it: a string is kept,
    [null] and [undefined] become the empty string, any other value is
    converted by [String] ([None] when [String] throws). *)
Definition stringConversion (v : Js.Value) : option string :=
  match v with
  | Js.Str s => Some s
  | Js.Null | Js.Undefined => Some ""
  | other => Js.String_ other
  end.

(** The answer to a send request that was carried out. *)
Definition successResponse (requestId : Js.Value) (action : string)
  : BridgeResponse :=
  {| type := "SUCCESS";
     requestId := requestId;
     payload := Js.Object [("action", Js.Str action)];
     error := None |}.

(** A payload that is an object with both a [title] and a [body] member. *)
Definition hasTitleAndBody (payload : Js.Value) : bool :=
  Js.is_object payload && Js.has "title" payload && Js.has "body" payload.

(** ** Vocabulary and sample inputs for the further properties *)

(** Registration gets as far as asking the OS for a token: a physical
    device, outside Expo Go, with the permission granted at once or on
    request, and a project id. *)
Definition permissionGranted (w : World) : bool :=
  match getPermissionsAsync w with
  | Js.Normal existing =>
      if String.eqb existing "granted" then true
      else match requestPermissionsAsync w with
           | Js.Normal requested => String.eqb requested "granted"
           | Js.Throw _ => false
           end
  | Js.Throw _ => false
  end.

Definition reachesTokenRequest (w : World) : bool :=
  Device_isDevice w
  && negb (NotificationService.isRunningInExpoGo w)
  && permissionGranted w
  && Js.truthy_string (NotificationService.resolveProjectId w).

(** The notifications the screen receives, one after the other. *)
Fixpoint receiveAll (ns : list Notifications.Notification) : M HomeScreen.State unit :=
  match ns with
  | [] => ret tt
  | n :: rest => HomeScreen.notificationReceived n ;; receiveAll rest
  end.

(** The bridge with the ref to the WebView set or cleared. *)
Definition withWebView (attached : bool) (h : WebViewBridge.State) : WebViewBridge.State :=
  {| WebViewBridge.service := WebViewBridge.service h;
     WebViewBridge.isLoading := WebViewBridge.isLoading h;
     WebViewBridge.isWebReady := WebViewBridge.isWebReady h;
     WebViewBridge.loadError := WebViewBridge.loadError h;
     WebViewBridge.webViewRef_current := attached |}.

Module Sample2.

(** The sample device with a failing notification channel. *)
Definition no_channel : World :=
  let w := Sample.world "token-A" Sample.accepted in
  {| Device_isDevice := Device_isDevice w;
     Constants_executionEnvironment := Constants_executionEnvironment w;
     Constants_appOwnership := Constants_appOwnership w;
     expoConfig_extra_eas_projectId := expoConfig_extra_eas_projectId w;
     easConfig_projectId := easConfig_projectId w;
     env_EXPO_PROJECT_ID := env_EXPO_PROJECT_ID w;
     expoConfig_extra_backendUrl := expoConfig_extra_backendUrl w;
     env_EXPO_PUBLIC_BACKEND_URL := env_EXPO_PUBLIC_BACKEND_URL w;
     Platform_OS := Platform_OS w;
     getPermissionsAsync := getPermissionsAsync w;
     requestPermissionsAsync := requestPermissionsAsync w;
     getDevicePushTokenAsync := getDevicePushTokenAsync w;
     setNotificationChannelAsync := Js.Throw (Js.Error "channel");
     scheduleNotificationAsync := scheduleNotificationAsync w;
     fetch := fetch w;
     JSON_parse := JSON_parse w;
     TypeError_destructure_null := TypeError_destructure_null w;
     TypeError_read_null := TypeError_read_null w;
     TypeError_to_primitive := TypeError_to_primitive w |}.

(** The sample device before the permission was ever asked. *)
Definition undetermined : World :=
  let w := Sample.world "token-A" Sample.accepted in
  {| Device_isDevice := Device_isDevice w;
     Constants_executionEnvironment := Constants_executionEnvironment w;
     Constants_appOwnership := Constants_appOwnership w;
     expoConfig_extra_eas_projectId := expoConfig_extra_eas_projectId w;
     easConfig_projectId := easConfig_projectId w;
     env_EXPO_PROJECT_ID := env_EXPO_PROJECT_ID w;
     expoConfig_extra_backendUrl := expoConfig_extra_backendUrl w;
     env_EXPO_PUBLIC_BACKEND_URL := env_EXPO_PUBLIC_BACKEND_URL w;
     Platform_OS := Platform_OS w;
     getPermissionsAsync := Js.Normal "undetermined";
     requestPermissionsAsync := requestPermissionsAsync w;
     getDevicePushTokenAsync := getDevicePushTokenAsync w;
     setNotificationChannelAsync := setNotificationChannelAsync w;
     scheduleNotificationAsync := scheduleNotificationAsync w;
     fetch := fetch w;
     JSON_parse := JSON_parse w;
     TypeError_destructure_null := TypeError_destructure_null w;
     TypeError_read_null := TypeError_read_null w;
     TypeError_to_primitive := TypeError_to_primitive w |}.

Definition notification (title : option string) (date : Js.Completion string)
  : Notifications.Notification :=
  {| Notifications.identifier := "n1";
     Notifications.title := title;
     Notifications.body := None;
     Notifications.data := Js.Undefined;
     Notifications.date_toISOString := date |}.

Definition invalid_date : Js.Thrown := Js.Error "Invalid time value".

(** The WebView replaced by the fallback screen. *)
Definition unmounted (s : NotificationService.State) : WebViewBridge.State :=
  {| WebViewBridge.service := s;
     WebViewBridge.isLoading := false;
     WebViewBridge.isWebReady := true;
     WebViewBridge.loadError := Some "net::ERR_CONNECTION_REFUSED";
     WebViewBridge.webViewRef_current := false |}.

(** The screen as first rendered. *)
Definition screen (s : NotificationService.State) : HomeScreen.State :=
  {| HomeScreen.service := s;
     HomeScreen.expoPushToken := None;
     HomeScreen.notifications := [];
     HomeScreen.isLoading := false;
     HomeScreen.notificationTitle := "Custom Title";
     HomeScreen.notificationBody := "This is a custom body!";
     HomeScreen.notificationListener := false;
     HomeScreen.responseListener := false;
     HomeScreen.alerts := [] |}.

(** A message with a number as [requestId]. *)
Definition raw_numeric_id : string :=
  "{" ++ Sample.member "type" (Js.quoted "SEND_LOCAL_NOTIFICATION") ++ ","
      ++ Sample.member "requestId" "7" ++ ","
      ++ Sample.member "payload" Sample.raw_payload ++ "}".

(** A payload whose [title] cannot be converted to a string, and a request
    that carries it. *)
Definition raw_unprintable_payload : string :=
  "{" ++ Sample.member "title" ("{" ++ Sample.member "toString" "1" ++ "}") ++ ","
      ++ Sample.member "body" (Js.quoted "B") ++ "}".

Definition unprintable_payload : Js.Value :=
  Js.Object [("title", Js.Object [("toString", Js.Number "1")]); ("body", Js.Str "B")].

Definition raw_send_local_unprintable : string :=
  Sample.raw_request "SEND_LOCAL_NOTIFICATION" "r6" raw_unprintable_payload.

Definition send_local_unprintable : Js.Value :=
  Sample.request "SEND_LOCAL_NOTIFICATION" "r6" unprintable_payload.

Definition numeric_id : Js.Value :=
  Js.Object [("type", Js.Str "SEND_LOCAL_NOTIFICATION"); ("requestId", Js.Number "7");
             ("payload", Sample.payload)].

(** The sample device for a web app that sends [raw], read as [value]. *)
Definition reading (raw : string) (value : Js.Value) : World :=
  let w := Sample.world "token-A" Sample.accepted in
  {| Device_isDevice := Device_isDevice w;
     Constants_executionEnvironment := Constants_executionEnvironment w;
     Constants_appOwnership := Constants_appOwnership w;
     expoConfig_extra_eas_projectId := expoConfig_extra_eas_projectId w;
     easConfig_projectId := easConfig_projectId w;
     env_EXPO_PROJECT_ID := env_EXPO_PROJECT_ID w;
     expoConfig_extra_backendUrl := expoConfig_extra_backendUrl w;
     env_EXPO_PUBLIC_BACKEND_URL := env_EXPO_PUBLIC_BACKEND_URL w;
     Platform_OS := Platform_OS w;
     getPermissionsAsync := getPermissionsAsync w;
     requestPermissionsAsync := requestPermissionsAsync w;
     getDevicePushTokenAsync := getDevicePushTokenAsync w;
     setNotificationChannelAsync := setNotificationChannelAsync w;
     scheduleNotificationAsync := scheduleNotificationAsync w;
     fetch := fetch w;
     JSON_parse := fun r => if String.eqb r raw then Some value else None;
     TypeError_destructure_null := TypeError_destructure_null w;
     TypeError_read_null := TypeError_read_null w;
     TypeError_to_primitive := TypeError_to_primitive w |}.

End Sample2.

(** * Properties *)

Unset Implicit Arguments.

(** ** Proof automation *)

Lemma eqb_false_of_neq (a b : string) : a <> b -> String.eqb a b = false.
Proof. intro H. apply String.eqb_neq. exact H. Qed.

Lemma truthy_string_Some (t : string) : t <> "" -> Js.truthy_string (Some t) = true.
Proof.
  intro H. unfold Js.truthy_string. rewrite (eqb_false_of_neq _ _ H). reflexivity.
Qed.

(** Case analysis on the innermost scrutinee the goal is stuck on. *)
Ltac break_match :=
  match goal with
  | |- context [match ?x with _ => _ end] =>
      lazymatch x with
      | context [match _ with _ => _ end] => fail
      | _ => destruct x eqn:?
      end
  end.

(** ** The model on the examples of the specification *)

Module Examples.

Import NotificationService WebViewBridge.

Example String_of_an_array :
  Js.String_ (Js.Array [Js.Number "1"; Js.Null; Js.Array [Js.Str "a"; Js.Boolean true];
                        Js.Object []])
  = Some "1,,a,true,[object Object]".
Proof. reflexivity. Qed.

Example String_of_an_object_with_a_toString_member :
  Js.String_ (Js.Object [("toString", Js.Number "1")]) = None
  /\ Js.String_ (Js.Array [Js.Str "a"; Js.Object [("toString", Js.Null)]]) = None.
Proof. split; reflexivity. Qed.

Example toNotificationData_converts :
  toNotificationData (Sample.world "token-A" Sample.accepted)
    (Js.Object [("title", Js.Number "42"); ("body", Js.Null); ("data", Js.Str "x")])
  = Js.Normal {| title := "42"; body := ""; data := Js.Undefined |}.
Proof. reflexivity. Qed.

Example toNotificationData_needs_body :
  toNotificationData (Sample.world "token-A" Sample.accepted) Sample.title_only
  = Js.Throw (Js.Error invalidPayload).
Proof. reflexivity. Qed.

Example toNotificationData_of_an_unprintable_title :
  toNotificationData (Sample.world "token-A" Sample.accepted) Sample2.unprintable_payload
  = Js.Throw (Js.Error "Cannot convert object to primitive value").
Proof. reflexivity. Qed.

Example send_local_notification :
  events (handleBridgeRequest Sample.raw_send_local
            (Sample.world "token-A" Sample.accepted)
            (Sample.bridge (Sample.registered "token-A")))
  = [Native (ScheduleNotification "T" "B" (Js.Object []));
     PostMessage (successResponse (Js.Str "r4") "SEND_LOCAL_NOTIFICATION")].
Proof. reflexivity. Qed.

Example unknown_request_type :
  posted (events (handleBridgeRequest Sample.raw_unknown
                    (Sample.world "token-A" Sample.accepted)
                    (Sample.bridge (Sample.registered "token-A"))))
  = [errorResponse (Some "r5") "Unknown bridge request type: FOO"].
Proof. reflexivity. Qed.

Example null_message :
  posted (events (handleBridgeRequest "null"
                    (Sample.world "token-A" Sample.accepted)
                    (Sample.bridge (Sample.registered "token-A"))))
  = [errorResponse None "Cannot destructure property of null"].
Proof. reflexivity. Qed.

Example registration_on_a_device :
  registerForPushNotifications (Sample.world "token-A" Sample.accepted) initial
  = {| completion := Js.Normal (Some "token-A");
       final := {| expoPushToken := Some "token-A" |};
       events :=
         [Native GetPermissions; Native GetDevicePushToken;
          Console console_log "Native Push Token:";
          HttpPost (fallbackBackendUrl ++ "/save-token") (saveTokenBody "token-A");
          Console console_log "Device token sent to backend";
          Native (SetNotificationChannel "default");
          Console console_log "Expo Push Token:"] |}.
Proof. reflexivity. Qed.

End Examples.

(** ** The notification service *)

Module NotificationServiceFacts.

Import NotificationService.

Lemma or_string_truthy (a b : option string) :
  Js.truthy_string a = true -> Js.or_string a b = a.
Proof. unfold Js.or_string. intros ->. reflexivity. Qed.

Lemma or_string_falsy (a b : option string) :
  Js.truthy_string a = false -> Js.or_string a b = b.
Proof. unfold Js.or_string. intros ->. reflexivity. Qed.

Arguments getBackendBaseUrl : simpl never.
Arguments resolveProjectId : simpl never.
Arguments isRunningInExpoGo : simpl never.

Lemma getBackendBaseUrl_truthy (w : World) :
  Js.truthy_string (getBackendBaseUrl w) = true.
Proof.
  unfold getBackendBaseUrl, Js.or_string.
  destruct (Js.truthy_string (expoConfig_extra_backendUrl w)) eqn:E1.
  - rewrite E1. exact E1.
  - destruct (Js.truthy_string (env_EXPO_PUBLIC_BACKEND_URL w)) eqn:E2.
    + exact E2.
    + reflexivity.
Qed.

Ltac unfold_service :=
  unfold registerForPushNotifications, sendTokenToBackend, setupAndroidChannel,
    sendPushNotificationViaBackend, sendLocalNotification, sendPushNotification,
    requestBackendToSendNotification, getExpoPushToken, read, post, console in *;
  unfold bind, try_catch, ask, get, put, emit, await, ret, throw in *.

Lemma try_catch_total {S A} (m : M S A) (handler : Js.Thrown -> M S A) (w : World) (s : S) :
  (forall e s', exists a, completion (handler e w s') = Js.Normal a) ->
  exists a, completion (try_catch m handler w s) = Js.Normal a.
Proof.
  intro H. unfold try_catch.
  destruct (m w s) as [[a|e] s1 tr1]; cbn; eauto.
  destruct (H e s1) as [a Ha]. destruct (handler e w s1); cbn in *; eauto.
Qed.

Lemma registerForPushNotifications_total (w : World) (s : State) :
  exists r, completion (registerForPushNotifications w s) = Js.Normal r.
Proof.
  unfold registerForPushNotifications.
  unfold bind at 1. cbn.
  destruct (Device_isDevice w); cbn; [ | eauto ].
  destruct (isRunningInExpoGo w); cbn; [ eauto | ].
  match goal with |- context [try_catch ?m ?h w s] => destruct (try_catch_total m h w s) as [a Ha] end.
  - intros; cbn; eauto.
  - destruct (try_catch _ _ w s); cbn in *; eauto.
Qed.

(** C5. [registerForPushNotifications] never throws: it always returns, and
    it returns [null] on a non-physical device, inside Expo Go, when the
    permission is denied, when no project id is configured, and when a call
    to the OS raises an error. *)
Theorem registerForPushNotifications_never_throws (w : World) (s : State) :
  (exists r, completion (registerForPushNotifications w s) = Js.Normal r)
  /\ (SoftFailure w -> completion (registerForPushNotifications w s) = Js.Normal None).
Proof.
  split; [ apply registerForPushNotifications_total | ].
  intros [H|H|s1 s2 H1 N1 H2 N2|H|e H|s1 e H1 N1 H2|e H|e HP H];
    unfold_service; cbn.
  all: try (apply eqb_false_of_neq in N1).
  all: try (apply eqb_false_of_neq in N2).
  all: try rewrite HP; try rewrite H; try rewrite H1; cbn; try rewrite N1; cbn; try rewrite H2; cbn; try rewrite N2; cbn; try reflexivity.
  all: repeat (break_match; cbn; try reflexivity; try discriminate).
Qed.

Lemma registerForPushNotifications_never_throws_witness :
  completion (registerForPushNotifications Sample.emulator initial) = Js.Normal None.
Proof.
  apply (proj2 (registerForPushNotifications_never_throws Sample.emulator initial)).
  apply NotPhysicalDevice. reflexivity.
Defined.

(** C10. The backend URL is never empty: the config override if truthy, else
    the environment override if truthy, else the hardcoded fallback.  Hence
    [sendTokenToBackend] always issues its POST, and so does
    [sendPushNotificationViaBackend] once past the token guard; neither ever
    logs the missing-URL warning. *)
Theorem getBackendBaseUrl_never_empty (w : World) :
  exists url,
    getBackendBaseUrl w = Some url /\ url <> ""
    /\ (forall c, expoConfig_extra_backendUrl w = Some c -> c <> "" -> url = c)
    /\ (Js.truthy_string (expoConfig_extra_backendUrl w) = false ->
        forall e, env_EXPO_PUBLIC_BACKEND_URL w = Some e -> e <> "" -> url = e)
    /\ (Js.truthy_string (expoConfig_extra_backendUrl w) = false ->
        Js.truthy_string (env_EXPO_PUBLIC_BACKEND_URL w) = false ->
        url = fallbackBackendUrl)
    /\ (forall token s,
          http_posts (events (sendTokenToBackend token w s))
          = [(url ++ "/save-token", saveTokenBody token)]
          /\ ~ In (console_warn, noBackendUrl_token)
                 (console_output (events (sendTokenToBackend token w s))))
    /\ (forall d s,
          Js.truthy_string (expoPushToken s) = true ->
          http_posts (events (sendPushNotificationViaBackend d w s))
          = [(url ++ "/send-notification", sendNotificationBody s d)])
    /\ (forall d s,
          ~ In (console_warn, noBackendUrl_request)
              (console_output (events (sendPushNotificationViaBackend d w s)))).
Proof.
  pose proof (getBackendBaseUrl_truthy w) as T.
  destruct (getBackendBaseUrl w) as [url|] eqn:U; [ | discriminate T ].
  exists url. split; [ reflexivity | ]. split.
  { intro E. subst url. discriminate T. }
  split; [ | split; [ | split; [ | split; [ | split ] ] ] ].
  - intros c C N. unfold getBackendBaseUrl in U.
    rewrite !or_string_truthy in U
      by (rewrite ?or_string_truthy; rewrite C; apply truthy_string_Some, N).
    congruence.
  - intros F e E N. unfold getBackendBaseUrl in U.
    rewrite (or_string_falsy (expoConfig_extra_backendUrl w)) in U by exact F.
    rewrite or_string_truthy in U by (rewrite E; apply truthy_string_Some, N).
    congruence.
  - intros F1 F2. unfold getBackendBaseUrl in U.
    rewrite (or_string_falsy (expoConfig_extra_backendUrl w)) in U by exact F1.
    rewrite (or_string_falsy (env_EXPO_PUBLIC_BACKEND_URL w)) in U by exact F2.
    congruence.
  - intros token s. unfold_service. cbn. rewrite ?U, ?T. cbn.
    destruct (fetch w _ _); cbn; (split; [ reflexivity | intuition discriminate ]).
  - intros d s P. unfold_service. cbn. rewrite P. cbn. rewrite ?U, ?T. cbn.
    repeat (break_match; cbn; try reflexivity).
  - intros d s. unfold_service. cbn.
    destruct (Js.truthy_string (expoPushToken s)); cbn;
      [ | intuition discriminate ].
    rewrite ?U, ?T. cbn.
    repeat (break_match; cbn; try (intuition discriminate)).
Qed.


Lemma getBackendBaseUrl_never_empty_witness :
  http_posts (events (sendTokenToBackend "token-A"
                        (Sample.world "token-A" Sample.accepted) initial))
  = [(fallbackBackendUrl ++ "/save-token", saveTokenBody "token-A")].
Proof.
  destruct (getBackendBaseUrl_never_empty (Sample.world "token-A" Sample.accepted))
    as [url [_ [_ [_ [_ [F [P _]]]]]]].
  rewrite <- (F eq_refl eq_refl). apply (P "token-A" initial).
Defined.

(** What [sendPushNotificationViaBackend] does without a token: it logs and
    returns, nothing else. *)
Lemma sendPushNotificationViaBackend_without_token
    (d : NotificationData) (w : World) (s : State) :
  Js.truthy_string (expoPushToken s) = false ->
  sendPushNotificationViaBackend d w s
  = {| completion := Js.Normal tt; final := s;
       events := [Console console_log "No push token available to send to backend"] |}.
Proof.
  intro F. unfold_service. cbn. rewrite F. reflexivity.
Qed.


Lemma sendPushNotificationViaBackend_posts_once
    (d : NotificationData) (w : World) (s : State) :
  Js.truthy_string (expoPushToken s) = true ->
  http_posts (events (sendPushNotificationViaBackend d w s))
  = [(sendNotificationUrl w, sendNotificationBody s d)].
Proof.
  intro P. unfold_service. unfold sendNotificationUrl. cbn. rewrite P. cbn.
  rewrite getBackendBaseUrl_truthy. cbn.
  repeat (break_match; cbn; try reflexivity).
Qed.

Lemma sendPushNotificationViaBackend_final
    (d : NotificationData) (w : World) (s : State) :
  final (sendPushNotificationViaBackend d w s) = s.
Proof.
  unfold_service. cbn.
  repeat (break_match; cbn; try reflexivity).
Qed.










End NotificationServiceFacts.

(** ** The bridge *)

Module WebViewBridgeFacts.

Import NotificationService WebViewBridge NotificationServiceFacts.

Lemma posted_app (tr1 tr2 : list Event) :
  posted (tr1 ++ tr2) = (posted tr1 ++ posted tr2)%list.
Proof.
  induction tr1 as [|[] tr1 IH]; cbn; rewrite ?IH; reflexivity.
Qed.

Lemma bind_normal {S A B} (m : M S A) (k : A -> M S B) (w : World) (s : S) (a : A) :
  completion (m w s) = Js.Normal a ->
  bind m k w s
  = {| completion := completion (k a w (final (m w s)));
       final := final (k a w (final (m w s)));
       events := events (m w s) ++ events (k a w (final (m w s))) |}.
Proof.
  intro C. unfold bind. destruct (m w s) as [c s1 tr1]. cbn in *. subst c.
  destruct (k a w s1); reflexivity.
Qed.

Lemma http_posts_app (tr1 tr2 : list Event) :
  http_posts (tr1 ++ tr2) = (http_posts tr1 ++ http_posts tr2)%list.
Proof.
  induction tr1 as [|[] tr1 IH]; cbn; rewrite ?IH; reflexivity.
Qed.

Lemma native_calls_app (tr1 tr2 : list Event) :
  native_calls (tr1 ++ tr2) = (native_calls tr1 ++ native_calls tr2)%list.
Proof.
  induction tr1 as [|[] tr1 IH]; cbn; rewrite ?IH; reflexivity.
Qed.

(** The service never talks to the WebView. *)
Lemma registerForPushNotifications_posts_nothing (w : World) (s : NotificationService.State) :
  posted (events (registerForPushNotifications w s)) = [].
Proof.
  unfold_service. cbn. repeat (break_match; cbn; try reflexivity).
Qed.

Lemma sendPushNotificationViaBackend_posts_nothing
    (d : NotificationData) (w : World) (s : NotificationService.State) :
  posted (events (sendPushNotificationViaBackend d w s)) = [].
Proof.
  unfold_service. cbn. repeat (break_match; cbn; try reflexivity).
Qed.

Lemma sendLocalNotification_run
    (d : NotificationData) (w : World) (s : NotificationService.State) :
  completion (sendLocalNotification d w s) = Js.Normal tt
  /\ final (sendLocalNotification d w s) = s
  /\ posted (events (sendLocalNotification d w s)) = []
  /\ http_posts (events (sendLocalNotification d w s)) = []
  /\ native_calls (events (sendLocalNotification d w s))
     = [ScheduleNotification (title d) (body d) (data_or_empty (data d))].
Proof.
  unfold_service. cbn.
  destruct (scheduleNotificationAsync w) as [[]|e]; cbn; repeat split.
Qed.


Ltac unfold_bridge :=
  unfold handleBridgeRequest, withRequestGuard, bridgeRequest, postToWeb,
    readinessEffect, listenersEffect, call, console in *;
  unfold bind, try_catch, ask, get, put, emit, await, ret, throw in *.

Arguments registerForPushNotifications : simpl never.
Arguments sendPushNotificationViaBackend : simpl never.
Arguments sendLocalNotification : simpl never.
Arguments toNotificationData : simpl never.
Arguments Js.is_string : simpl never.

(** What the handler given to the guard does: it leaves the component alone,
    and either returns after posting one PUSH_TOKEN or SUCCESS response that
    carries the [requestId] of the request, or throws having posted nothing. *)
Lemma bridgeRequest_outcome (raw : string) (w : World) (h : State) :
  webViewRef_current h = true ->
  webViewRef_current (final (bridgeRequest raw w h)) = true
  /\ match completion (bridgeRequest raw w h) with
     | Js.Normal _ =>
         exists m parsed,
           JSON_parse w raw = Some parsed
           /\ posted (events (bridgeRequest raw w h)) = [m]
           /\ requestId m = Js.field parsed "requestId"
           /\ (type m = "PUSH_TOKEN" \/ type m = "SUCCESS")
     | Js.Throw _ => posted (events (bridgeRequest raw w h)) = []
     end.
Proof.
  intro R. unfold_bridge. cbn.
  destruct (JSON_parse w raw) as [parsed|]; cbn; [ | auto ].
  destruct (Js.prop parsed "type") as [type|]; cbn; [ | auto ].
  destruct (Js.is_string type "REQUEST_PUSH_TOKEN"); cbn.
  { destruct (expoPushToken (service h)) as [t|]; cbn.
    - rewrite R. cbn. split; [ first [ reflexivity | exact R ] | ]. eauto 10.
    - pose proof (registerForPushNotifications_total w (service h)) as [r T].
      pose proof (registerForPushNotifications_posts_nothing w (service h)) as P.
      destruct (registerForPushNotifications w (service h)) as [c s' tr].
      cbn in T, P. subst c. cbn. rewrite R. cbn.
      split; [ first [ reflexivity | exact R ] | ].
      rewrite posted_app, P. cbn. eauto 10. }
  destruct (Js.is_string type "SEND_PUSH_VIA_BACKEND"); cbn.
  { destruct (toNotificationData w (Js.field parsed "payload")) as [d|e]; cbn; [ | auto ].
    pose proof (sendPushNotificationViaBackend_posts_nothing d w (service h)) as P.
    destruct (sendPushNotificationViaBackend d w (service h)) as [[[]|e] s' tr];
      cbn in P; cbn; [ | auto ].
    rewrite R. cbn. split; [ first [ reflexivity | exact R ] | ].
    rewrite posted_app, P. cbn. eauto 10. }
  destruct (Js.is_string type "SEND_LOCAL_NOTIFICATION"); cbn;
    [ | destruct (Js.String_ type); cbn; auto ].
  destruct (toNotificationData w (Js.field parsed "payload")) as [d|e]; cbn; [ | auto ].
  pose proof (sendLocalNotification_run d w (service h)) as [C [_ [P _]]].
  destruct (sendLocalNotification d w (service h)) as [c s' tr].
  cbn in C, P. subst c. cbn. rewrite R. cbn. split; [ first [ reflexivity | exact R ] | ].
  rewrite posted_app, P. cbn. eauto 10.
Qed.

Arguments bridgeRequest : simpl never.

(** The guard around it: a normal return is passed on, a throw becomes one
    ERROR response. *)
Lemma handleBridgeRequest_run (raw : string) (w : World) (h : State) :
  webViewRef_current h = true ->
  handleBridgeRequest raw w h
  = match completion (bridgeRequest raw w h) with
    | Js.Normal _ =>
        {| completion := Js.Normal tt;
           final := final (bridgeRequest raw w h);
           events := events (bridgeRequest raw w h) |}
    | Js.Throw e =>
        {| completion := Js.Normal tt;
           final := final (bridgeRequest raw w h);
           events := events (bridgeRequest raw w h)
                     ++ [Console console_error "Bridge request failed:";
                         PostMessage (errorResponse (parsedRequestId w raw)
                                        (guardMessage e))] |}
    end.
Proof.
  intro R. destruct (bridgeRequest_outcome raw w h R) as [R' _].
  unfold handleBridgeRequest, withRequestGuard.
  unfold bind at 1, ask at 1. cbn.
  unfold try_catch.
  destruct (bridgeRequest raw w h) as [[[]|e] h1 tr1]; cbn in *.
  - reflexivity.
  - unfold postToWeb, console, bind, get, emit. cbn. rewrite R'. reflexivity.
Qed.


Lemma handleBridgeRequest_returns (raw : string) (w : World) (h : State) :
  completion (handleBridgeRequest raw w h) = Js.Normal tt.
Proof.
  unfold handleBridgeRequest, withRequestGuard.
  unfold bind at 1, ask at 1. cbn.
  unfold try_catch.
  destruct (bridgeRequest raw w h) as [[[]|e] h1 tr1]; cbn.
  - reflexivity.
  - unfold postToWeb, console, bind, get, emit. cbn.
    destruct (webViewRef_current h1); reflexivity.
Qed.

(** C1. A message that is valid JSON with a string [requestId] gets exactly
    one response, which carries that [requestId]: a PUSH_TOKEN or SUCCESS
    response when the dispatch succeeds, an ERROR response otherwise, also
    when the message is no well-formed request. *)
Theorem every_request_gets_exactly_one_response
    (raw : string) (w : World) (h : State)
    (members : list (string * Js.Value)) (id : string) :
  webViewRef_current h = true ->
  JSON_parse w raw = Some (Js.Object members) ->
  Js.lookup "requestId" members = Some (Js.Str id) ->
  completion (handleBridgeRequest raw w h) = Js.Normal tt
  /\ exists m,
       posted (events (handleBridgeRequest raw w h)) = [m]
       /\ requestId m = Js.Str id
       /\ (type m = "PUSH_TOKEN" \/ type m = "SUCCESS" \/ type m = "ERROR").
Proof.
  intros R J I. split; [ apply handleBridgeRequest_returns | ].
  rewrite (handleBridgeRequest_run raw w h R).
  destruct (bridgeRequest_outcome raw w h R) as [_ O].
  destruct (completion (bridgeRequest raw w h)) as [[]|e].
  - destruct O as [m [parsed [J' [P [Q T]]]]]. cbn.
    exists m. split; [ exact P | ]. split.
    + rewrite Q. rewrite J in J'. injection J' as <-.
      unfold Js.field, Js.prop. rewrite I. reflexivity.
    + tauto.
  - cbn. rewrite posted_app, O. cbn. eexists. split; [ reflexivity | ].
    cbn. split; [ | tauto ].
    unfold parsedRequestId. rewrite J. cbn. rewrite I. reflexivity.
Qed.

Lemma every_request_gets_exactly_one_response_witness :
  exists m,
    posted (events (handleBridgeRequest Sample.raw_send_local_bad
                      (Sample.world "token-A" Sample.accepted)
                      (Sample.bridge (Sample.registered "token-A")))) = [m]
    /\ requestId m = Js.Str "r2".
Proof.
  destruct (every_request_gets_exactly_one_response
              Sample.raw_send_local_bad
              (Sample.world "token-A" Sample.accepted)
              (Sample.bridge (Sample.registered "token-A"))
              [("type", Js.Str "SEND_LOCAL_NOTIFICATION");
               ("requestId", Js.Str "r2"); ("payload", Sample.title_only)]
              "r2" eq_refl eq_refl eq_refl) as [_ [m [P [Q _]]]].
  exists m. split; [ exact P | exact Q ].
Defined.

(** C3. No error leaves the message handler: [handleBridgeRequest] always
    returns.  An error raised while decoding or dispatching becomes a single
    ERROR response whose [error] is the message of the error (a fixed text
    for a thrown value that is no [Error]) and whose [payload.context] is
    the tag [handleBridgeRequest]. *)
Theorem errors_stop_at_the_request_guard (raw : string) (w : World) (h : State) :
  completion (handleBridgeRequest raw w h) = Js.Normal tt
  /\ (webViewRef_current h = true ->
      forall e,
        completion (bridgeRequest raw w h) = Js.Throw e ->
        posted (events (handleBridgeRequest raw w h))
        = [ {| type := "ERROR";
               requestId := Js.optional (parsedRequestId w raw);
               payload := Js.Object [("context", Js.Str "handleBridgeRequest")];
               error := Some match e with
                             | Js.Error message => message
                             | Js.NonError _ => "Unexpected native error"
                             end |} ]).
Proof.
  split; [ apply handleBridgeRequest_returns | ].
  intros R e T.
  rewrite (handleBridgeRequest_run raw w h R).
  destruct (bridgeRequest_outcome raw w h R) as [_ O].
  rewrite T in *. cbn. rewrite posted_app, O. reflexivity.
Qed.

Lemma errors_stop_at_the_request_guard_witness :
  posted (events (handleBridgeRequest "not json"
                    (Sample.world "token-A" Sample.accepted)
                    (Sample.bridge (Sample.registered "token-A"))))
  = [ {| type := "ERROR";
         requestId := Js.Undefined;
         payload := Js.Object [("context", Js.Str "handleBridgeRequest")];
         error := Some unparsable |} ].
Proof.
  apply (proj2 (errors_stop_at_the_request_guard "not json"
                  (Sample.world "token-A" Sample.accepted)
                  (Sample.bridge (Sample.registered "token-A")))
           eq_refl (Js.Error unparsable) eq_refl).
Defined.


(** Evaluation of the comparisons of [type] with the three request types. *)
Ltac eval_is_string :=
  repeat match goal with
         | |- context [Js.is_string (Js.Str ?a) ?b] =>
             let v := eval vm_compute in (Js.is_string (Js.Str a) b) in
             change (Js.is_string (Js.Str a) b) with v
         end.

Lemma toNotificationData_accepts (w : World) (payload : Js.Value) (t b : string) :
  hasTitleAndBody payload = true ->
  coerce (Js.field payload "title") = Some t ->
  coerce (Js.field payload "body") = Some b ->
  toNotificationData w payload
  = Js.Normal {| title := t;
                 body := b;
                 data := if Js.is_object (Js.field payload "data")
                         then Js.field payload "data" else Js.Undefined |}.
Proof.
  unfold hasTitleAndBody, toNotificationData. intros -> -> ->. reflexivity.
Qed.

Lemma toNotificationData_rejects (w : World) (payload : Js.Value) :
  hasTitleAndBody payload = false ->
  toNotificationData w payload = Js.Throw (Js.Error invalidPayload).
Proof.
  unfold hasTitleAndBody, toNotificationData. intros ->. reflexivity.
Qed.

Lemma toNotificationData_cannot_convert (w : World) (payload : Js.Value) :
  hasTitleAndBody payload = true ->
  coerce (Js.field payload "title") = None
  \/ coerce (Js.field payload "body") = None ->
  toNotificationData w payload = Js.Throw (Js.Error (TypeError_to_primitive w)).
Proof.
  unfold hasTitleAndBody, toNotificationData. intros -> [E|E].
  - rewrite E. reflexivity.
  - rewrite E. destruct (coerce (Js.field payload "title")); reflexivity.
Qed.

Lemma coerce_is_stringConversion (v : Js.Value) : coerce v = stringConversion v.
Proof. destruct v; reflexivity. Qed.

Lemma prop_Object (members : list (string * Js.Value)) (key : string) (v : Js.Value) :
  Js.lookup key members = Some v -> Js.prop (Js.Object members) key = Some v.
Proof. unfold Js.prop. intros ->. reflexivity. Qed.

Lemma field_Object (members : list (string * Js.Value)) (key : string) (v : Js.Value) :
  Js.lookup key members = Some v -> Js.field (Js.Object members) key = v.
Proof. unfold Js.field, Js.prop. intros ->. reflexivity. Qed.

Arguments Js.field : simpl never.
Arguments Js.prop : simpl never.

(** A send request whose payload makes [toNotificationData] throw throws
    that error before anything is done. *)
Lemma bridgeRequest_bad_payload (raw : string) (w : World) (h : State)
    (members : list (string * Js.Value)) (type : string) (e : Js.Thrown) :
  JSON_parse w raw = Some (Js.Object members) ->
  Js.lookup "type" members = Some (Js.Str type) ->
  type = "SEND_PUSH_VIA_BACKEND" \/ type = "SEND_LOCAL_NOTIFICATION" ->
  toNotificationData w (Js.field (Js.Object members) "payload") = Js.Throw e ->
  bridgeRequest raw w h
  = {| completion := Js.Throw e; final := h; events := [] |}.
Proof.
  intros J T K V. unfold bridgeRequest.
  unfold bind, ask, ret, await. cbn. rewrite J. cbn.
  rewrite (prop_Object _ _ _ T).
  rewrite V.
  destruct K as [-> | ->]; eval_is_string; reflexivity.
Qed.

Lemma bridgeRequest_rejects (raw : string) (w : World) (h : State)
    (members : list (string * Js.Value)) (type : string) :
  JSON_parse w raw = Some (Js.Object members) ->
  Js.lookup "type" members = Some (Js.Str type) ->
  type = "SEND_PUSH_VIA_BACKEND" \/ type = "SEND_LOCAL_NOTIFICATION" ->
  hasTitleAndBody (Js.field (Js.Object members) "payload") = false ->
  bridgeRequest raw w h
  = {| completion := Js.Throw (Js.Error invalidPayload); final := h; events := [] |}.
Proof.
  intros J T K V.
  apply (bridgeRequest_bad_payload raw w h members type _ J T K).
  apply toNotificationData_rejects, V.
Qed.

(** A send request with a good payload calls the service with the converted
    payload and posts SUCCESS if that call returns. *)
Lemma bridgeRequest_send_push (raw : string) (w : World) (h : State)
    (members : list (string * Js.Value)) (d : NotificationData) :
  webViewRef_current h = true ->
  JSON_parse w raw = Some (Js.Object members) ->
  Js.lookup "type" members = Some (Js.Str "SEND_PUSH_VIA_BACKEND") ->
  toNotificationData w (Js.field (Js.Object members) "payload") = Js.Normal d ->
  completion (bridgeRequest raw w h)
  = completion (sendPushNotificationViaBackend d w (service h))
  /\ events (bridgeRequest raw w h)
     = (events (sendPushNotificationViaBackend d w (service h))
        ++ match completion (sendPushNotificationViaBackend d w (service h)) with
           | Js.Normal _ =>
               [PostMessage (successResponse
                               (Js.field (Js.Object members) "requestId")
                               "SEND_PUSH_VIA_BACKEND")]
           | Js.Throw _ => []
           end)%list.
Proof.
  intros R J T V. unfold bridgeRequest.
  unfold bind, ask, ret, await, call, postToWeb, get, emit. cbn. rewrite J. cbn.
  rewrite (prop_Object _ _ _ T). rewrite V. eval_is_string. cbn.
  destruct (sendPushNotificationViaBackend d w (service h)) as [[[]|e] s' tr]; cbn.
  - rewrite R. cbn. split; reflexivity.
  - rewrite app_nil_r. split; reflexivity.
Qed.

Lemma bridgeRequest_send_local (raw : string) (w : World) (h : State)
    (members : list (string * Js.Value)) (d : NotificationData) :
  webViewRef_current h = true ->
  JSON_parse w raw = Some (Js.Object members) ->
  Js.lookup "type" members = Some (Js.Str "SEND_LOCAL_NOTIFICATION") ->
  toNotificationData w (Js.field (Js.Object members) "payload") = Js.Normal d ->
  completion (bridgeRequest raw w h) = Js.Normal tt
  /\ events (bridgeRequest raw w h)
     = (events (sendLocalNotification d w (service h))
        ++ [PostMessage (successResponse
                           (Js.field (Js.Object members) "requestId")
                           "SEND_LOCAL_NOTIFICATION")])%list.
Proof.
  intros R J T V. unfold bridgeRequest.
  unfold bind, ask, ret, await, call, postToWeb, get, emit. cbn. rewrite J. cbn.
  rewrite (prop_Object _ _ _ T). rewrite V. eval_is_string. cbn.
  pose proof (sendLocalNotification_run d w (service h)) as [C _].
  destruct (sendLocalNotification d w (service h)) as [c s' tr]; cbn in *.
  subst c. rewrite R. cbn. split; reflexivity.
Qed.

(** C4, as the code has it.  A SEND_PUSH_VIA_BACKEND or
    SEND_LOCAL_NOTIFICATION request whose payload is not an object with both
    [title] and [body] gets the invalid-payload ERROR response and reaches
    neither the OS nor the backend.  When both members are there, a value
    that is not a string is converted with [String] ([null] and [undefined]
    to the empty string) and the converted payload is what the OS scheduler
    or the backend receives; when [String] cannot convert the title or the
    body, the request gets the ERROR response of that TypeError and again
    reaches neither the OS nor the backend. *)
Theorem notification_payload_is_validated
    (raw : string) (w : World) (h : State)
    (members : list (string * Js.Value)) (type : string) :
  webViewRef_current h = true ->
  JSON_parse w raw = Some (Js.Object members) ->
  Js.lookup "type" members = Some (Js.Str type) ->
  type = "SEND_PUSH_VIA_BACKEND" \/ type = "SEND_LOCAL_NOTIFICATION" ->
  (hasTitleAndBody (Js.field (Js.Object members) "payload") = false ->
   posted (events (handleBridgeRequest raw w h))
   = [errorResponse (parsedRequestId w raw) invalidPayload]
   /\ native_calls (events (handleBridgeRequest raw w h)) = []
   /\ http_posts (events (handleBridgeRequest raw w h)) = [])
  /\ (hasTitleAndBody (Js.field (Js.Object members) "payload") = true ->
      forall t b,
        stringConversion (Js.field (Js.field (Js.Object members) "payload") "title")
        = Some t ->
        stringConversion (Js.field (Js.field (Js.Object members) "payload") "body")
        = Some b ->
        exists d,
          toNotificationData w (Js.field (Js.Object members) "payload") = Js.Normal d
          /\ title d = t
          /\ body d = b
          /\ (type = "SEND_LOCAL_NOTIFICATION" ->
              native_calls (events (handleBridgeRequest raw w h))
              = [ScheduleNotification t b (data_or_empty (data d))]
              /\ posted (events (handleBridgeRequest raw w h))
                 = [successResponse (Js.field (Js.Object members) "requestId") type])
          /\ (type = "SEND_PUSH_VIA_BACKEND" ->
              Js.truthy_string (expoPushToken (service h)) = true ->
              http_posts (events (handleBridgeRequest raw w h))
              = [(sendNotificationUrl w, sendNotificationBody (service h) d)]))
  /\ (hasTitleAndBody (Js.field (Js.Object members) "payload") = true ->
      stringConversion (Js.field (Js.field (Js.Object members) "payload") "title")
      = None
      \/ stringConversion (Js.field (Js.field (Js.Object members) "payload") "body")
         = None ->
      posted (events (handleBridgeRequest raw w h))
      = [errorResponse (parsedRequestId w raw) (TypeError_to_primitive w)]
      /\ native_calls (events (handleBridgeRequest raw w h)) = []
      /\ http_posts (events (handleBridgeRequest raw w h)) = []).
Proof.
  intros R J T K. rewrite (handleBridgeRequest_run raw w h R).
  split; [ | split ].
  - intro V. rewrite (bridgeRequest_rejects raw w h members type J T K V).
    cbn. repeat split.
  - intros V t b Ct Cb. rewrite <- coerce_is_stringConversion in Ct, Cb.
    pose proof (toNotificationData_accepts w _ t b V Ct Cb) as A.
    eexists. split; [ exact A | ].
    cbn [title body data]. split; [ reflexivity | ]. split; [ reflexivity | ]. split.
    + intros ->.
      destruct (bridgeRequest_send_local raw w h members _ R J T A) as [C E].
      rewrite C, E. cbn [events].
      destruct (sendLocalNotification_run
                  {| title := t; body := b;
                     data := if Js.is_object (Js.field (Js.field (Js.Object members) "payload") "data")
                             then Js.field (Js.field (Js.Object members) "payload") "data"
                             else Js.Undefined |} w (service h))
        as [_ [_ [P [_ N]]]].
      rewrite native_calls_app, posted_app, N, P. cbn. split; reflexivity.
    + intros -> P.
      destruct (bridgeRequest_send_push raw w h members _ R J T A) as [C E].
      rewrite C, E.
      destruct (completion (sendPushNotificationViaBackend _ w (service h)));
        cbn [events]; rewrite ?http_posts_app;
        rewrite (sendPushNotificationViaBackend_posts_once _ w (service h) P);
        cbn; reflexivity.
  - intros V N. rewrite <- !coerce_is_stringConversion in N.
    rewrite (bridgeRequest_bad_payload raw w h members type _ J T K
               (toNotificationData_cannot_convert w _ V N)).
    cbn. repeat split.
Qed.

Lemma notification_payload_is_validated_witness :
  posted (events (handleBridgeRequest Sample.raw_send_local_bad
                    (Sample.world "token-A" Sample.accepted)
                    (Sample.bridge (Sample.registered "token-A"))))
  = [errorResponse (Some "r2") invalidPayload]
  /\ native_calls (events (handleBridgeRequest Sample.raw_send_local_bad
                             (Sample.world "token-A" Sample.accepted)
                             (Sample.bridge (Sample.registered "token-A")))) = []
  /\ http_posts (events (handleBridgeRequest Sample.raw_send_local_bad
                            (Sample.world "token-A" Sample.accepted)
                            (Sample.bridge (Sample.registered "token-A")))) = [].
Proof.
  apply (proj1 (notification_payload_is_validated
                  Sample.raw_send_local_bad
                  (Sample.world "token-A" Sample.accepted)
                  (Sample.bridge (Sample.registered "token-A"))
                  [("type", Js.Str "SEND_LOCAL_NOTIFICATION");
                   ("requestId", Js.Str "r2"); ("payload", Sample.title_only)]
                  "SEND_LOCAL_NOTIFICATION"
                  eq_refl eq_refl eq_refl (or_intror eq_refl))).
  reflexivity.
Defined.

(** C4 as stated fails: the payload [{title: {toString: 1}, body: B}] has
    both members, yet its title is not converted: [String] throws, the
    request is answered with the ERROR response of that TypeError and the
    scheduler is not called. *)
Lemma unconvertible_title_is_answered_with_an_error :
  hasTitleAndBody Sample2.unprintable_payload = true
  /\ posted (events (handleBridgeRequest Sample2.raw_send_local_unprintable
                        (Sample2.reading Sample2.raw_send_local_unprintable
                           Sample2.send_local_unprintable)
                        (Sample.bridge (Sample.registered "token-A"))))
     = [ {| type := "ERROR";
            requestId := Js.Str "r6";
            payload := Js.Object [("context", Js.Str "handleBridgeRequest")];
            error := Some "Cannot convert object to primitive value" |} ]
  /\ native_calls (events (handleBridgeRequest Sample2.raw_send_local_unprintable
                             (Sample2.reading Sample2.raw_send_local_unprintable
                                Sample2.send_local_unprintable)
                             (Sample.bridge (Sample.registered "token-A")))) = [].
Proof.
  repeat split.
Qed.

(** C2, as the code has it.  A SEND_PUSH_VIA_BACKEND request dispatched while
    the token is [null] issues no HTTP request and leaves nothing uncaught;
    the service logs the missing token and returns without raising, so the
    dispatch ends as a successful one does: the content receives one SUCCESS
    response when the payload is valid.  When the payload lacks [title] or
    [body] it receives the invalid-payload ERROR response, and when one of
    them cannot be converted to a string, the ERROR response of that
    TypeError. *)
Theorem send_push_without_token_is_answered_with_success
    (raw : string) (w : World) (h : State) (members : list (string * Js.Value)) :
  webViewRef_current h = true ->
  JSON_parse w raw = Some (Js.Object members) ->
  Js.lookup "type" members = Some (Js.Str "SEND_PUSH_VIA_BACKEND") ->
  expoPushToken (service h) = None ->
  completion (handleBridgeRequest raw w h) = Js.Normal tt
  /\ http_posts (events (handleBridgeRequest raw w h)) = []
  /\ (forall d,
        sendPushNotificationViaBackend d w (service h)
        = {| completion := Js.Normal tt; final := service h;
             events := [Console console_log
                          "No push token available to send to backend"] |})
  /\ (hasTitleAndBody (Js.field (Js.Object members) "payload") = true ->
      forall t b,
        stringConversion (Js.field (Js.field (Js.Object members) "payload") "title")
        = Some t ->
        stringConversion (Js.field (Js.field (Js.Object members) "payload") "body")
        = Some b ->
        posted (events (handleBridgeRequest raw w h))
        = [successResponse (Js.field (Js.Object members) "requestId")
             "SEND_PUSH_VIA_BACKEND"])
  /\ (hasTitleAndBody (Js.field (Js.Object members) "payload") = false ->
      posted (events (handleBridgeRequest raw w h))
      = [errorResponse (parsedRequestId w raw) invalidPayload])
  /\ (hasTitleAndBody (Js.field (Js.Object members) "payload") = true ->
      stringConversion (Js.field (Js.field (Js.Object members) "payload") "title")
      = None
      \/ stringConversion (Js.field (Js.field (Js.Object members) "payload") "body")
         = None ->
      posted (events (handleBridgeRequest raw w h))
      = [errorResponse (parsedRequestId w raw) (TypeError_to_primitive w)]).
Proof.
  intros R J T N.
  assert (F : Js.truthy_string (expoPushToken (service h)) = false)
    by (rewrite N; reflexivity).
  split; [ apply handleBridgeRequest_returns | ].
  rewrite (handleBridgeRequest_run raw w h R).
  assert (W : forall d,
             sendPushNotificationViaBackend d w (service h)
             = {| completion := Js.Normal tt; final := service h;
                  events := [Console console_log
                               "No push token available to send to backend"] |})
    by (intro d; apply sendPushNotificationViaBackend_without_token, F).
  assert (K : "SEND_PUSH_VIA_BACKEND" = "SEND_PUSH_VIA_BACKEND"
              \/ "SEND_PUSH_VIA_BACKEND" = "SEND_LOCAL_NOTIFICATION")
    by (left; reflexivity).
  destruct (toNotificationData w (Js.field (Js.Object members) "payload"))
    as [d|e] eqn:D.
  - destruct (bridgeRequest_send_push raw w h members d R J T D) as [C E].
    rewrite C, E, W. cbn.
    split; [ reflexivity | ]. split; [ exact W | ].
    split; [ intros; reflexivity | ]. split.
    + intro V. rewrite (toNotificationData_rejects w _ V) in D. discriminate D.
    + intros V X. rewrite <- !coerce_is_stringConversion in X.
      rewrite (toNotificationData_cannot_convert w _ V X) in D. discriminate D.
  - rewrite (bridgeRequest_bad_payload raw w h members _ e J T K D).
    cbn. split; [ reflexivity | ]. split; [ exact W | ].
    split; [ | split ].
    + intros V t b Ct Cb. rewrite <- coerce_is_stringConversion in Ct, Cb.
      rewrite (toNotificationData_accepts w _ t b V Ct Cb) in D. discriminate D.
    + intro V. rewrite (toNotificationData_rejects w _ V) in D.
      injection D as <-. reflexivity.
    + intros V X. rewrite <- !coerce_is_stringConversion in X.
      rewrite (toNotificationData_cannot_convert w _ V X) in D.
      injection D as <-. reflexivity.
Qed.

Lemma send_push_without_token_witness :
  http_posts (events (handleBridgeRequest Sample.raw_send_push
                        (Sample.world "token-A" Sample.accepted)
                        (Sample.bridge initial))) = [].
Proof.
  apply (send_push_without_token_is_answered_with_success
           Sample.raw_send_push
           (Sample.world "token-A" Sample.accepted)
           (Sample.bridge initial)
           [("type", Js.Str "SEND_PUSH_VIA_BACKEND");
            ("requestId", Js.Str "r1"); ("payload", Sample.payload)]
           eq_refl eq_refl eq_refl eq_refl).
Defined.

(** C2 as stated fails: with no token, the request
    [{type: SEND_PUSH_VIA_BACKEND, requestId: r1, payload: {title: T, body: B}}]
    is answered with SUCCESS, and no ERROR response is posted. *)
Lemma send_push_without_token_posts_success :
  expoPushToken (service (Sample.bridge initial)) = None
  /\ JSON_parse (Sample.world "token-A" Sample.accepted) Sample.raw_send_push
     = Some (Sample.request "SEND_PUSH_VIA_BACKEND" "r1" Sample.payload)
  /\ posted (events (handleBridgeRequest Sample.raw_send_push
                        (Sample.world "token-A" Sample.accepted)
                        (Sample.bridge initial)))
     = [ {| type := "SUCCESS";
            requestId := Js.Str "r1";
            payload := Js.Object [("action", Js.Str "SEND_PUSH_VIA_BACKEND")];
            error := None |} ].
Proof.
  repeat split.
Qed.


(** REQUEST_PUSH_TOKEN with a token in the cache: the token is posted and
    nothing else happens. *)
Lemma handleBridgeRequest_cached_token (raw : string) (w : World) (h : State)
    (members : list (string * Js.Value)) (t : string) :
  webViewRef_current h = true ->
  expoPushToken (service h) = Some t ->
  JSON_parse w raw = Some (Js.Object members) ->
  Js.lookup "type" members = Some (Js.Str "REQUEST_PUSH_TOKEN") ->
  events (handleBridgeRequest raw w h)
  = [PostMessage (tokenResponse (Js.field (Js.Object members) "requestId") (Some t))]
  /\ service (final (handleBridgeRequest raw w h)) = service h
  /\ webViewRef_current (final (handleBridgeRequest raw w h)) = true.
Proof.
  intros R N J T. unfold handleBridgeRequest, withRequestGuard.
  unfold bridgeRequest, postToWeb, call, getExpoPushToken.
  unfold bind, try_catch, ask, get, emit, ret. cbn. rewrite J. cbn.
  rewrite (prop_Object _ _ _ T). eval_is_string. cbn. rewrite N. cbn.
  rewrite R. cbn. repeat split.
Qed.

(** C7. Two REQUEST_PUSH_TOKEN requests in a row, with a token in the cache:
    both answers carry that token, and the second dispatch calls neither the
    OS (no registration) nor the backend (no token POST); the cache is as it
    was. *)
Theorem request_push_token_twice_reads_the_cache
    (raw1 raw2 : string) (w1 w2 : World) (h : State)
    (members1 members2 : list (string * Js.Value)) (t : string) :
  webViewRef_current h = true ->
  expoPushToken (service h) = Some t ->
  JSON_parse w1 raw1 = Some (Js.Object members1) ->
  Js.lookup "type" members1 = Some (Js.Str "REQUEST_PUSH_TOKEN") ->
  JSON_parse w2 raw2 = Some (Js.Object members2) ->
  Js.lookup "type" members2 = Some (Js.Str "REQUEST_PUSH_TOKEN") ->
  posted (events (handleBridgeRequest raw1 w1 h))
  = [tokenResponse (Js.field (Js.Object members1) "requestId") (Some t)]
  /\ posted (events (handleBridgeRequest raw2 w2
                        (final (handleBridgeRequest raw1 w1 h))))
     = [tokenResponse (Js.field (Js.Object members2) "requestId") (Some t)]
  /\ native_calls (events (handleBridgeRequest raw2 w2
                              (final (handleBridgeRequest raw1 w1 h)))) = []
  /\ http_posts (events (handleBridgeRequest raw2 w2
                            (final (handleBridgeRequest raw1 w1 h)))) = []
  /\ expoPushToken (service (final (handleBridgeRequest raw2 w2
                                      (final (handleBridgeRequest raw1 w1 h)))))
     = Some t.
Proof.
  intros R N J1 T1 J2 T2.
  destruct (handleBridgeRequest_cached_token raw1 w1 h members1 t R N J1 T1)
    as [E1 [S1 R1]].
  assert (N1 : expoPushToken (service (final (handleBridgeRequest raw1 w1 h))) = Some t)
    by (rewrite S1; exact N).
  destruct (handleBridgeRequest_cached_token raw2 w2 _ members2 t R1 N1 J2 T2)
    as [E2 [S2 _]].
  rewrite E1, E2, S2. cbn. repeat split. exact N1.
Qed.

(** The same when the first request finds the cache empty and its
    registration succeeds: the second request reads what the first cached. *)
Lemma request_push_token_after_first_registration
    (raw1 raw2 : string) (w1 w2 : World) (h : State)
    (members1 members2 : list (string * Js.Value)) (t : string) :
  webViewRef_current h = true ->
  expoPushToken (service h) = None ->
  completion (registerForPushNotifications w1 (service h)) = Js.Normal (Some t) ->
  JSON_parse w1 raw1 = Some (Js.Object members1) ->
  Js.lookup "type" members1 = Some (Js.Str "REQUEST_PUSH_TOKEN") ->
  JSON_parse w2 raw2 = Some (Js.Object members2) ->
  Js.lookup "type" members2 = Some (Js.Str "REQUEST_PUSH_TOKEN") ->
  posted (events (handleBridgeRequest raw1 w1 h))
  = [tokenResponse (Js.field (Js.Object members1) "requestId") (Some t)]
  /\ events (handleBridgeRequest raw2 w2 (final (handleBridgeRequest raw1 w1 h)))
     = [PostMessage (tokenResponse (Js.field (Js.Object members2) "requestId") (Some t))].
Proof.
  intros R N G J1 T1 J2 T2.
  assert (K : expoPushToken (final (registerForPushNotifications w1 (service h))) = Some t).
  { revert G. unfold registerForPushNotifications, sendTokenToBackend,
      setupAndroidChannel, post, console.
    unfold bind, try_catch, ask, get, put, emit, await, ret, throw. cbn.
    repeat (break_match; cbn; try discriminate; try congruence). }
  pose proof (registerForPushNotifications_posts_nothing w1 (service h)) as P.
  assert (E : posted (events (handleBridgeRequest raw1 w1 h))
              = [tokenResponse (Js.field (Js.Object members1) "requestId") (Some t)]
              /\ service (final (handleBridgeRequest raw1 w1 h))
                 = final (registerForPushNotifications w1 (service h))
              /\ webViewRef_current (final (handleBridgeRequest raw1 w1 h)) = true).
  { unfold handleBridgeRequest, withRequestGuard.
    unfold bridgeRequest, postToWeb, call, getExpoPushToken.
    unfold bind, try_catch, ask, get, emit, ret. cbn. rewrite J1. cbn.
    rewrite (prop_Object _ _ _ T1). eval_is_string. cbn. rewrite N. cbn.
    destruct (registerForPushNotifications w1 (service h)) as [c s' tr].
    cbn in G, P |- *. subst c. cbn. rewrite R. cbn.
    rewrite posted_app, P. repeat split. }
  destruct E as [E1 [S1 R1]]. split; [ exact E1 | ].
  apply (handleBridgeRequest_cached_token raw2 w2 _ members2 t R1); try assumption.
  rewrite S1. exact K.
Qed.

Lemma request_push_token_twice_witness :
  posted (events (handleBridgeRequest Sample.raw_request_token
                    (Sample.world "token-B" Sample.html_502)
                    (final (handleBridgeRequest Sample.raw_request_token
                              (Sample.world "token-A" Sample.accepted)
                              (Sample.bridge (Sample.registered "token-A"))))))
  = [tokenResponse (Js.Str "r3") (Some "token-A")].
Proof.
  apply (request_push_token_twice_reads_the_cache
           Sample.raw_request_token Sample.raw_request_token
           (Sample.world "token-A" Sample.accepted)
           (Sample.world "token-B" Sample.html_502)
           (Sample.bridge (Sample.registered "token-A"))
           [("type", Js.Str "REQUEST_PUSH_TOKEN");
            ("requestId", Js.Str "r3"); ("payload", Js.Null)]
           [("type", Js.Str "REQUEST_PUSH_TOKEN");
            ("requestId", Js.Str "r3"); ("payload", Js.Null)]
           "token-A" eq_refl eq_refl eq_refl eq_refl eq_refl eq_refl).
Defined.


Ltac unfold_component :=
  unfold onLoadEvent, commit, mount, handleLoadEnd, handleLoadError, reloadWebView,
    setIsLoading, setIsWebReady, setLoadError, readinessEffect, listenersEffect,
    postToWeb, call, getExpoPushToken, addNotificationReceivedListener,
    addNotificationResponseReceivedListener in *;
  unfold bind, ask, get, put, emit, ret in *.

(** One load event: the flag is set by a load end and never cleared, the
    singleton is not touched, and the token is posted exactly when the flag
    goes from unset to set while a token is there. *)
Lemma onLoadEvent_run (e : LoadEvent) (w : World) (h : State) :
  completion (onLoadEvent e w h) = Js.Normal tt
  /\ service (final (onLoadEvent e w h)) = service h
  /\ isWebReady (final (onLoadEvent e w h)) = (isWebReady h || isLoadEnd e)%bool
  /\ posted (events (onLoadEvent e w h))
     = if (negb (isWebReady h) && isLoadEnd e
           && Js.truthy_string (expoPushToken (service h)))%bool
       then [unsolicitedToken (Js.template (expoPushToken (service h)))]
       else [].
Proof.
  destruct e; unfold_component; cbn.
  - destruct (isWebReady h); cbn; [ repeat split | ].
    destruct (expoPushToken (service h)) as [t|]; cbn; [ | repeat split ].
    destruct (negb (String.eqb t "")); cbn; repeat split.
  - destruct (isWebReady h); cbn; repeat (break_match; cbn); repeat split.
  - destruct (isWebReady h); cbn; repeat (break_match; cbn); repeat split.
Qed.

Arguments onLoadEvent : simpl never.
Arguments mount : simpl never.

Lemma onLoadEvents_cons (e : LoadEvent) (es : list LoadEvent) (w : World) (h : State) :
  service (final (onLoadEvents (e :: es) w h))
  = service (final (onLoadEvents es w (final (onLoadEvent e w h))))
  /\ posted (events (onLoadEvents (e :: es) w h))
     = (posted (events (onLoadEvent e w h))
        ++ posted (events (onLoadEvents es w (final (onLoadEvent e w h)))))%list.
Proof.
  destruct (onLoadEvent_run e w h) as [C _].
  cbn [onLoadEvents]. rewrite (bind_normal _ _ w h tt C). cbn.
  rewrite posted_app. split; reflexivity.
Qed.

(** Once the flag is set, load events post nothing. *)
Lemma onLoadEvents_when_ready (es : list LoadEvent) (w : World) (h : State) :
  isWebReady h = true -> posted (events (onLoadEvents es w h)) = [].
Proof.
  revert h. induction es as [|e es IH]; intros h Ready.
  - reflexivity.
  - destruct (onLoadEvents_cons e es w h) as [_ ->].
    destruct (onLoadEvent_run e w h) as [_ [_ [F P]]].
    rewrite P, Ready. cbn [negb andb app]. apply IH. rewrite F, Ready. reflexivity.
Qed.

(** Until then, the first load end posts the token, if there is one. *)
Lemma onLoadEvents_until_ready (es : list LoadEvent) (w : World) (h : State) :
  isWebReady h = false ->
  posted (events (onLoadEvents es w h))
  = if (existsb isLoadEnd es && Js.truthy_string (expoPushToken (service h)))%bool
    then [unsolicitedToken (Js.template (expoPushToken (service h)))]
    else [].
Proof.
  revert h. induction es as [|e es IH]; intros h NotReady.
  - reflexivity.
  - destruct (onLoadEvents_cons e es w h) as [_ ->].
    destruct (onLoadEvent_run e w h) as [_ [S [F P]]].
    rewrite P, NotReady. cbn [negb andb existsb].
    destruct (isLoadEnd e) eqn:E; cbn [andb orb].
    + rewrite onLoadEvents_when_ready
        by (rewrite F; apply Bool.orb_true_r).
      rewrite app_nil_r. reflexivity.
    + rewrite IH by (rewrite F, NotReady; reflexivity).
      rewrite S. reflexivity.
Qed.

Lemma mount_run (w : World) (h : State) :
  completion (mount w h) = Js.Normal tt
  /\ service (final (mount w h)) = service h
  /\ isWebReady (final (mount w h)) = false
  /\ posted (events (mount w h)) = [].
Proof.
  unfold_component. cbn. repeat split.
Qed.

(** C9. From the mounting of the component on, whatever load events follow:
    with a token in the cache, exactly one PUSH_TOKEN message without
    [requestId] is posted, at the first load end (nothing before it, nothing
    at a later load end); with no token in the cache nothing is posted. *)
Theorem readiness_handshake_posts_the_token_once
    (es : list LoadEvent) (w : World) (h : State) :
  (forall t,
      expoPushToken (service h) = Some t -> t <> "" ->
      posted (events ((mount ;; onLoadEvents es) w h))
      = if existsb isLoadEnd es then [unsolicitedToken t] else [])
  /\ (expoPushToken (service h) = None ->
      posted (events ((mount ;; onLoadEvents es) w h)) = []).
Proof.
  destruct (mount_run w h) as [C [S [F P]]].
  rewrite (bind_normal mount (fun _ => onLoadEvents es) w h tt C).
  cbn [events]. rewrite posted_app, P. cbn [app].
  rewrite (onLoadEvents_until_ready es w _ F). rewrite S. split.
  - intros t -> N. rewrite (truthy_string_Some t N). rewrite Bool.andb_true_r.
    reflexivity.
  - intros ->. cbn. rewrite Bool.andb_false_r. reflexivity.
Qed.

Lemma readiness_handshake_witness :
  posted (events ((mount ;; onLoadEvents [LoadEnd; Reload; LoadEnd])
                    (Sample.world "token-A" Sample.accepted)
                    (Sample.bridge (Sample.registered "token-A"))))
  = [unsolicitedToken "token-A"].
Proof.
  assert (N : "token-A" <> "") by discriminate.
  apply (proj1 (readiness_handshake_posts_the_token_once
                  [LoadEnd; Reload; LoadEnd]
                  (Sample.world "token-A" Sample.accepted)
                  (Sample.bridge (Sample.registered "token-A")))
           "token-A" eq_refl N).
Defined.

End WebViewBridgeFacts.

(** * Further properties *)

(** ** The notification service *)

Module NotificationServiceMore.

Import NotificationService NotificationServiceFacts.

Lemma console_output_app (tr1 tr2 : list Event) :
  console_output (tr1 ++ tr2) = (console_output tr1 ++ console_output tr2)%list.
Proof.
  induction tr1 as [|[] tr1 IH]; cbn; rewrite ?IH; reflexivity.
Qed.

(** X1. [sendTokenToBackend] never throws and leaves the singleton as it is.
    It issues exactly one POST, to [/save-token] of the backend, and never
    looks at the response: whenever the fetch resolves, also with a non-2xx
    status, it logs that the token was sent; only a rejected fetch is logged
    as a failure. *)
Theorem sendTokenToBackend_takes_any_response_as_sent
    (token : string) (w : World) (s : State) :
  completion (sendTokenToBackend token w s) = Js.Normal tt
  /\ final (sendTokenToBackend token w s) = s
  /\ http_posts (events (sendTokenToBackend token w s))
     = [(Js.template (getBackendBaseUrl w) ++ "/save-token", saveTokenBody token)]
  /\ (forall response,
        fetch w (Js.template (getBackendBaseUrl w) ++ "/save-token")
          (saveTokenBody token) = Js.Normal response ->
        console_output (events (sendTokenToBackend token w s))
        = [(console_log, "Device token sent to backend")])
  /\ (forall e,
        fetch w (Js.template (getBackendBaseUrl w) ++ "/save-token")
          (saveTokenBody token) = Js.Throw e ->
        console_output (events (sendTokenToBackend token w s))
        = [(console_error, "Failed to send token to backend:")]).
Proof.
  unfold_service. cbn. rewrite getBackendBaseUrl_truthy. cbn.
  destruct (fetch w _ _) as [response|e]; cbn; repeat split;
    intros; try discriminate; reflexivity.
Qed.

Lemma sendTokenToBackend_takes_any_response_as_sent_witness :
  console_output (events (sendTokenToBackend "token-A"
                            (Sample.world "token-A" Sample.html_502) initial))
  = [(console_log, "Device token sent to backend")].
Proof.
  destruct (sendTokenToBackend_takes_any_response_as_sent "token-A"
              (Sample.world "token-A" Sample.html_502) initial)
    as [_ [_ [_ [L _]]]].
  apply (L {| ok := false; json := Js.Throw Sample.not_json |}). reflexivity.
Defined.

(** X2. [requestBackendToSendNotification] has no token guard: it never
    throws, leaves the singleton as it is and always issues exactly one POST
    to [/send-notification], whose [token] is [null] when no token is cached
    (where [sendPushNotificationViaBackend] issues none). *)
Theorem requestBackendToSendNotification_posts_without_token
    (title body : string) (w : World) (s : State) :
  completion (requestBackendToSendNotification title body w s) = Js.Normal tt
  /\ final (requestBackendToSendNotification title body w s) = s
  /\ http_posts (events (requestBackendToSendNotification title body w s))
     = [(Js.template (getBackendBaseUrl w) ++ "/send-notification",
         Js.Object [("title", Js.Str title); ("body", Js.Str body);
                    ("token", match expoPushToken s with
                              | Some t => Js.Str t
                              | None => Js.Null
                              end)])]
  /\ (expoPushToken s = None ->
      forall d, http_posts (events (sendPushNotificationViaBackend d w s)) = []).
Proof.
  split; [ | split; [ | split ] ].
  - unfold_service. cbn. rewrite getBackendBaseUrl_truthy. cbn.
    destruct (fetch w _ _); reflexivity.
  - unfold_service. cbn. rewrite getBackendBaseUrl_truthy. cbn.
    destruct (fetch w _ _); reflexivity.
  - unfold_service. cbn. rewrite getBackendBaseUrl_truthy. cbn.
    destruct (expoPushToken s); destruct (fetch w _ _); reflexivity.
  - intros N d. rewrite sendPushNotificationViaBackend_without_token
      by (rewrite N; reflexivity).
    reflexivity.
Qed.

Lemma requestBackendToSendNotification_posts_without_token_witness :
  http_posts (events (sendPushNotificationViaBackend Sample.notification
                        (Sample.world "token-A" Sample.accepted) initial)) = [].
Proof.
  apply (requestBackendToSendNotification_posts_without_token "T" "B"
           (Sample.world "token-A" Sample.accepted) initial).
  reflexivity.
Defined.

(** X3. [sendPushNotification] (the direct call of the Expo push service)
    never throws and leaves the singleton as it is.  Without a token it only
    logs; with one it issues exactly one POST to the Expo endpoint, addressed
    to the cached token, with [data] defaulting to the empty object; a
    rejected fetch or an unreadable answer is logged, not raised. *)
Theorem sendPushNotification_fails_soft
    (d : NotificationData) (w : World) (s : State) :
  completion (sendPushNotification d w s) = Js.Normal tt
  /\ final (sendPushNotification d w s) = s
  /\ (Js.truthy_string (expoPushToken s) = false ->
      events (sendPushNotification d w s)
      = [Console console_log "No push token available"])
  /\ (forall t,
        expoPushToken s = Some t -> t <> "" ->
        http_posts (events (sendPushNotification d w s))
        = [("https://exp.host/--/api/v2/push/send",
            Js.Object [("to", Js.Str t); ("sound", Js.Str "default");
                       ("title", Js.Str (title d)); ("body", Js.Str (body d));
                       ("data", if Js.truthy (data d) then data d
                                else Js.Object [])])]).
Proof.
  split; [ | split; [ | split ] ].
  - unfold_service. cbn. repeat (break_match; cbn; try reflexivity).
  - unfold_service. cbn. repeat (break_match; cbn; try reflexivity).
  - intro F. unfold_service. cbn. rewrite F. reflexivity.
  - intros t T N. unfold_service. cbn. rewrite T.
    rewrite (truthy_string_Some t N). cbn.
    repeat (break_match; cbn; try reflexivity).
Qed.

Lemma sendPushNotification_fails_soft_witness :
  events (sendPushNotification Sample.notification
            (Sample.world "token-A" Sample.accepted) initial)
  = [Console console_log "No push token available"].
Proof.
  apply (sendPushNotification_fails_soft Sample.notification
           (Sample.world "token-A" Sample.accepted) initial).
  reflexivity.
Defined.

(** X4. [sendLocalNotification] never throws, leaves the singleton as it is
    and reaches no backend.  It makes exactly one call of the OS scheduler,
    with the title and body it was given and with [data] replaced by the
    empty object when it is falsy; an error of the scheduler is logged and
    swallowed, so the caller sees no difference. *)
Theorem sendLocalNotification_schedules_once
    (d : NotificationData) (w : World) (s : State) :
  completion (sendLocalNotification d w s) = Js.Normal tt
  /\ final (sendLocalNotification d w s) = s
  /\ http_posts (events (sendLocalNotification d w s)) = []
  /\ native_calls (events (sendLocalNotification d w s))
     = [ScheduleNotification (title d) (body d)
          (if Js.truthy (data d) then data d else Js.Object [])]
  /\ (forall e,
        scheduleNotificationAsync w = Js.Throw e ->
        console_output (events (sendLocalNotification d w s))
        = [(console_error, "Error sending local notification:")])
  /\ (scheduleNotificationAsync w = Js.Normal tt ->
      console_output (events (sendLocalNotification d w s)) = []).
Proof.
  unfold_service. cbn.
  destruct (scheduleNotificationAsync w) as [[]|e]; cbn; repeat split;
    intros; try discriminate; reflexivity.
Qed.

Lemma sendLocalNotification_schedules_once_witness :
  console_output (events (sendLocalNotification Sample.notification
                            (Sample.world "token-A" Sample.accepted) initial)) = [].
Proof.
  apply (sendLocalNotification_schedules_once Sample.notification
           (Sample.world "token-A" Sample.accepted) initial).
  reflexivity.
Defined.

Ltac run_registration :=
  unfold registerForPushNotifications, sendTokenToBackend, setupAndroidChannel,
    post, console;
  unfold bind, try_catch, ask, get, put, emit, await, ret, throw; cbn.

Lemma registration_result (w : World) (s : State) (t : string) :
  completion (registerForPushNotifications w s) = Js.Normal (Some t) ->
  expoPushToken (final (registerForPushNotifications w s)) = Some t
  /\ getDevicePushTokenAsync w = Js.Normal t
  /\ reachesTokenRequest w = true.
Proof.
  unfold reachesTokenRequest, permissionGranted. run_registration.
  destruct (Device_isDevice w); cbn; [ | intro E; discriminate E ].
  destruct (isRunningInExpoGo w); cbn; [ intro E; discriminate E | ].
  destruct (getPermissionsAsync w) as [existing|e]; cbn;
    [ | intro E; discriminate E ].
  destruct (String.eqb existing "granted") eqn:G1; cbn; rewrite ?G1; cbn.
  - destruct (Js.truthy_string (resolveProjectId w)); cbn;
      [ | intro E; discriminate E ].
    destruct (getDevicePushTokenAsync w) as [issued|e]; cbn;
      [ | intro E; discriminate E ].
    repeat (break_match; cbn); intro E; try discriminate E;
      injection E as <-; repeat split.
  - destruct (requestPermissionsAsync w) as [requested|e]; cbn;
      [ | intro E; discriminate E ].
    destruct (String.eqb requested "granted") eqn:G2; cbn; rewrite ?G2; cbn;
      [ | intro E; discriminate E ].
    destruct (Js.truthy_string (resolveProjectId w)); cbn;
      [ | intro E; discriminate E ].
    destruct (getDevicePushTokenAsync w) as [issued|e]; cbn;
      [ | intro E; discriminate E ].
    repeat (break_match; cbn); intro E; try discriminate E;
      injection E as <-; repeat split.
Qed.

(** X5. A token returned by [registerForPushNotifications] is the token the
    OS issued on that call and is the token left in the cache. *)
Theorem registerForPushNotifications_returns_the_cached_token
    (w : World) (s : State) (t : string) :
  completion (registerForPushNotifications w s) = Js.Normal (Some t) ->
  expoPushToken (final (registerForPushNotifications w s)) = Some t
  /\ getDevicePushTokenAsync w = Js.Normal t
  /\ reachesTokenRequest w = true.
Proof.
  intro C. destruct (registration_result w s t C) as [T [G R]].
  split; [ exact T | split; [ exact G | exact R ] ].
Qed.

Lemma registerForPushNotifications_returns_the_cached_token_witness :
  expoPushToken (final (registerForPushNotifications
                          (Sample.world "token-A" Sample.html_502) initial))
  = Some "token-A".
Proof.
  apply (registerForPushNotifications_returns_the_cached_token
           (Sample.world "token-A" Sample.html_502) initial "token-A").
  reflexivity.
Defined.

(** X6. The result of [registerForPushNotifications] can be [null] although
    a token was obtained: when the set-up of the Android channel fails, the
    token of the OS is already in the cache (and, if not empty, already sent
    to the backend), and [null] is returned. *)
Theorem registerForPushNotifications_null_with_a_cached_token
    (w : World) (s : State) (t : string) (e : Js.Thrown) :
  reachesTokenRequest w = true ->
  getDevicePushTokenAsync w = Js.Normal t ->
  Platform_OS w = "android" ->
  setNotificationChannelAsync w = Js.Throw e ->
  completion (registerForPushNotifications w s) = Js.Normal None
  /\ expoPushToken (final (registerForPushNotifications w s)) = Some t
  /\ (t <> "" ->
      http_posts (events (registerForPushNotifications w s))
      = [(Js.template (getBackendBaseUrl w) ++ "/save-token", saveTokenBody t)]).
Proof.
  unfold reachesTokenRequest, permissionGranted. intros R G P C.
  assert (A : String.eqb (Platform_OS w) "android" = true)
    by (rewrite P; reflexivity).
  run_registration.
  destruct (Device_isDevice w); cbn in *; [ | discriminate ].
  destruct (isRunningInExpoGo w); cbn in *; [ discriminate | ].
  destruct (getPermissionsAsync w) as [existing|x]; cbn in *; [ | discriminate ].
  destruct (String.eqb existing "granted") eqn:G1; cbn in *; rewrite ?G1; cbn.
  - rewrite R. cbn. rewrite G. cbn.
    destruct (String.eqb t "") eqn:E; cbn.
    + rewrite A. cbn. rewrite C. cbn. repeat split.
      intro N. apply String.eqb_eq in E. contradiction.
    + rewrite getBackendBaseUrl_truthy. cbn.
      destruct (fetch w _ _); cbn; rewrite A; cbn; rewrite C; cbn; repeat split.
  - destruct (requestPermissionsAsync w) as [requested|x]; cbn in *; [ | discriminate ].
    destruct (String.eqb requested "granted") eqn:G2; cbn in *; rewrite ?G2; cbn;
      [ | discriminate ].
    rewrite R. cbn. rewrite G. cbn.
    destruct (String.eqb t "") eqn:E; cbn.
    + rewrite A. cbn. rewrite C. cbn. repeat split.
      intro N. apply String.eqb_eq in E. contradiction.
    + rewrite getBackendBaseUrl_truthy. cbn.
      destruct (fetch w _ _); cbn; rewrite A; cbn; rewrite C; cbn; repeat split.
Qed.

Lemma registerForPushNotifications_null_with_a_cached_token_witness :
  completion (registerForPushNotifications Sample2.no_channel initial) = Js.Normal None
  /\ expoPushToken (final (registerForPushNotifications Sample2.no_channel initial))
     = Some "token-A".
Proof.
  destruct (registerForPushNotifications_null_with_a_cached_token
              Sample2.no_channel initial "token-A" (Js.Error "channel")
              eq_refl eq_refl eq_refl eq_refl) as [C [T _]].
  split; [ exact C | exact T ].
Defined.

(** X7. [registerForPushNotifications] asks the OS for a device token
    exactly when it runs on a physical device, outside Expo Go, with the
    permission granted and a project id configured.  In every other case it
    returns [null], leaves the cache as it is and sends nothing to the
    backend. *)
Theorem device_token_is_requested_only_when_allowed (w : World) (s : State) :
  (reachesTokenRequest w = true ->
   In GetDevicePushToken (native_calls (events (registerForPushNotifications w s))))
  /\ (reachesTokenRequest w = false ->
      completion (registerForPushNotifications w s) = Js.Normal None
      /\ final (registerForPushNotifications w s) = s
      /\ http_posts (events (registerForPushNotifications w s)) = []
      /\ ~ In GetDevicePushToken
            (native_calls (events (registerForPushNotifications w s)))).
Proof.
  unfold reachesTokenRequest, permissionGranted. run_registration.
  destruct (Device_isDevice w); cbn;
    [ | split; [ discriminate | intros _; repeat split; intros [] ] ].
  destruct (isRunningInExpoGo w); cbn;
    [ split; [ discriminate | intros _; repeat split; intros [] ] | ].
  destruct (getPermissionsAsync w) as [existing|e]; cbn;
    [ | split; [ discriminate | intros _; repeat split; intuition discriminate ] ].
  destruct (String.eqb existing "granted") eqn:G1; cbn; rewrite ?G1; cbn.
  - destruct (Js.truthy_string (resolveProjectId w)); cbn;
      [ | split; [ discriminate | intros _; repeat split; intuition discriminate ] ].
    split; [ intros _ | discriminate ].
    repeat (break_match; cbn); intuition.
  - destruct (requestPermissionsAsync w) as [requested|e]; cbn;
      [ | split; [ discriminate | intros _; repeat split; intuition discriminate ] ].
    destruct (String.eqb requested "granted") eqn:G2; cbn; rewrite ?G2; cbn;
      [ | split; [ discriminate | intros _; repeat split; intuition discriminate ] ].
    destruct (Js.truthy_string (resolveProjectId w)); cbn;
      [ | split; [ discriminate | intros _; repeat split; intuition discriminate ] ].
    split; [ intros _ | discriminate ].
    repeat (break_match; cbn); intuition.
Qed.

Lemma device_token_is_requested_only_when_allowed_witness :
  final (registerForPushNotifications Sample.emulator (Sample.registered "token-A"))
  = Sample.registered "token-A".
Proof.
  apply (proj2 (device_token_is_requested_only_when_allowed
                  Sample.emulator (Sample.registered "token-A"))).
  reflexivity.
Defined.

(** X8. [registerForPushNotifications] prompts for the permission exactly
    when it runs on a physical device outside Expo Go and the permission is
    not granted already. *)
Theorem permission_is_requested_only_when_not_granted (w : World) (s : State) :
  In RequestPermissions (native_calls (events (registerForPushNotifications w s)))
  <-> (Device_isDevice w = true
       /\ isRunningInExpoGo w = false
       /\ exists existing,
            getPermissionsAsync w = Js.Normal existing /\ existing <> "granted").
Proof.
  run_registration.
  destruct (Device_isDevice w); cbn;
    [ | split; [ intros [] | intros [E _]; discriminate E ] ].
  destruct (isRunningInExpoGo w); cbn;
    [ split; [ intros [] | intros [_ [E _]]; discriminate E ] | ].
  destruct (getPermissionsAsync w) as [existing|e]; cbn.
  2: { split; [ intuition discriminate | intros [_ [_ [x [E _]]]]; discriminate E ]. }
  destruct (String.eqb existing "granted") eqn:G1; cbn; rewrite ?G1; cbn.
  - apply String.eqb_eq in G1. split.
    + repeat (break_match; cbn); intuition discriminate.
    + intros [_ [_ [x [E N]]]]. injection E as <-. contradiction.
  - apply String.eqb_neq in G1. split.
    + intros _. repeat split. exists existing. split; [ reflexivity | exact G1 ].
    + intros _. repeat (break_match; cbn); intuition.
Qed.

End NotificationServiceMore.

(** ** The bridge *)

Module WebViewBridgeMore.

Import NotificationService WebViewBridge NotificationServiceFacts WebViewBridgeFacts.

(** X9. A request whose [type] is none of the three request types (a
    missing [type] included) is answered with one ERROR response: it names
    the type as [String] prints it, or carries the TypeError of [String]
    when the type cannot be converted.  Nothing else happens: no call of the
    OS, no HTTP request, no change of state. *)
Theorem unknown_request_type_is_reported
    (raw : string) (w : World) (h : State) (parsed type : Js.Value) :
  webViewRef_current h = true ->
  JSON_parse w raw = Some parsed ->
  Js.prop parsed "type" = Some type ->
  (forall t, type = Js.Str t ->
             t <> "REQUEST_PUSH_TOKEN" /\ t <> "SEND_PUSH_VIA_BACKEND"
             /\ t <> "SEND_LOCAL_NOTIFICATION") ->
  events (handleBridgeRequest raw w h)
  = [Console console_error "Bridge request failed:";
     PostMessage (errorResponse (parsedRequestId w raw)
                    match Js.String_ type with
                    | Some printed => "Unknown bridge request type: " ++ printed
                    | None => TypeError_to_primitive w
                    end)]
  /\ final (handleBridgeRequest raw w h) = h.
Proof.
  intros R J T U.
  assert (F : forall name,
             name = "REQUEST_PUSH_TOKEN" \/ name = "SEND_PUSH_VIA_BACKEND"
             \/ name = "SEND_LOCAL_NOTIFICATION" ->
             Js.is_string type name = false).
  { intros name K. unfold Js.is_string. destruct type; try reflexivity.
    destruct (U s eq_refl) as [U1 [U2 U3]].
    apply String.eqb_neq. intro E. subst s. intuition. }
  assert (B : bridgeRequest raw w h
              = {| completion :=
                     Js.Throw (Js.Error
                                 match Js.String_ type with
                                 | Some printed =>
                                     "Unknown bridge request type: " ++ printed
                                 | None => TypeError_to_primitive w
                                 end);
                   final := h; events := [] |}).
  { unfold bridgeRequest, bind, ask, ret, throw. cbn. rewrite J. cbn. rewrite T.
    rewrite !F by tauto. destruct (Js.String_ type); reflexivity. }
  rewrite (handleBridgeRequest_run raw w h R). rewrite B. cbn. split; reflexivity.
Qed.

Lemma unknown_request_type_is_reported_witness :
  events (handleBridgeRequest "[]" (Sample2.reading "[]" (Js.Array []))
            (Sample.bridge (Sample.registered "token-A")))
  = [Console console_error "Bridge request failed:";
     PostMessage (errorResponse None "Unknown bridge request type: undefined")].
Proof.
  apply (unknown_request_type_is_reported "[]"
           (Sample2.reading "[]" (Js.Array []))
           (Sample.bridge (Sample.registered "token-A"))
           (Js.Array []) Js.Undefined eq_refl eq_refl eq_refl).
  intros t E. discriminate E.
Defined.

(** X10. A message that is not JSON is answered with one ERROR response
    without [requestId]: the second parse that should recover the id fails as
    the first did.  The message [null] is answered likewise, with the
    TypeError of the destructuring as the error.  Neither changes anything. *)
Theorem undecodable_message_is_answered_without_id
    (raw : string) (w : World) (h : State) :
  webViewRef_current h = true ->
  (JSON_parse w raw = None ->
   parsedRequestId w raw = None
   /\ events (handleBridgeRequest raw w h)
      = [Console console_error "Bridge request failed:";
         PostMessage (errorResponse None unparsable)]
   /\ final (handleBridgeRequest raw w h) = h)
  /\ (JSON_parse w raw = Some Js.Null ->
      events (handleBridgeRequest raw w h)
      = [Console console_error "Bridge request failed:";
         PostMessage (errorResponse None (TypeError_destructure_null w))]
      /\ final (handleBridgeRequest raw w h) = h).
Proof.
  intro R. rewrite (handleBridgeRequest_run raw w h R).
  unfold bridgeRequest, parsedRequestId, bind, ask, ret, throw. cbn.
  split; intros ->; cbn; repeat split.
Qed.

Lemma undecodable_message_is_answered_without_id_witness :
  events (handleBridgeRequest "{requestId: r1}"
            (Sample.world "token-A" Sample.accepted)
            (Sample.bridge (Sample.registered "token-A")))
  = [Console console_error "Bridge request failed:";
     PostMessage (errorResponse None unparsable)].
Proof.
  apply (proj1 (undecodable_message_is_answered_without_id "{requestId: r1}"
                  (Sample.world "token-A" Sample.accepted)
                  (Sample.bridge (Sample.registered "token-A")) eq_refl)).
  reflexivity.
Defined.

(** X11. A [requestId] that is not a string is handled differently by the
    two ways a dispatch can end: a PUSH_TOKEN or SUCCESS response carries it
    as it came, an ERROR response carries none. *)
Theorem non_string_requestId_is_kept_on_success_only
    (raw : string) (w : World) (h : State)
    (members : list (string * Js.Value)) (id : Js.Value) :
  webViewRef_current h = true ->
  JSON_parse w raw = Some (Js.Object members) ->
  Js.lookup "requestId" members = Some id ->
  (forall s, id <> Js.Str s) ->
  (completion (bridgeRequest raw w h) = Js.Normal tt ->
   exists m, posted (events (handleBridgeRequest raw w h)) = [m]
             /\ requestId m = id
             /\ (type m = "PUSH_TOKEN" \/ type m = "SUCCESS"))
  /\ (forall e,
        completion (bridgeRequest raw w h) = Js.Throw e ->
        posted (events (handleBridgeRequest raw w h))
        = [errorResponse None (guardMessage e)]).
Proof.
  intros R J I N.
  rewrite (handleBridgeRequest_run raw w h R).
  destruct (bridgeRequest_outcome raw w h R) as [_ O].
  assert (P : parsedRequestId w raw = None).
  { unfold parsedRequestId. rewrite J. rewrite (prop_Object _ _ _ I).
    destruct id; try reflexivity. destruct (N s eq_refl). }
  split.
  - intro C. rewrite C in *. destruct O as [m [parsed [J' [Q [K T]]]]].
    exists m. cbn. split; [ exact Q | ]. split; [ | exact T ].
    rewrite K. rewrite J in J'. injection J' as <-.
    apply field_Object, I.
  - intros e C. rewrite C in *. cbn. rewrite posted_app, O, P. reflexivity.
Qed.

Lemma non_string_requestId_is_kept_on_success_only_witness :
  exists m,
    posted (events (handleBridgeRequest Sample2.raw_numeric_id
                      (Sample2.reading Sample2.raw_numeric_id Sample2.numeric_id)
                      (Sample.bridge (Sample.registered "token-A")))) = [m]
    /\ requestId m = Js.Number "7".
Proof.
  assert (N : forall s, Js.Number "7" <> Js.Str s) by (intros s E; discriminate E).
  destruct (proj1 (non_string_requestId_is_kept_on_success_only
                     Sample2.raw_numeric_id
                     (Sample2.reading Sample2.raw_numeric_id Sample2.numeric_id)
                     (Sample.bridge (Sample.registered "token-A"))
                     [("type", Js.Str "SEND_LOCAL_NOTIFICATION");
                      ("requestId", Js.Number "7"); ("payload", Sample.payload)]
                     (Js.Number "7") eq_refl eq_refl eq_refl N) eq_refl)
    as [m [P [Q _]]].
  exists m. split; [ exact P | exact Q ].
Defined.

(** X12. REQUEST_PUSH_TOKEN with an empty cache runs one registration and
    answers with whatever it returned, [null] included; the singleton is
    left as the registration left it. *)
Theorem request_push_token_registers_when_cache_is_empty
    (raw : string) (w : World) (h : State) (members : list (string * Js.Value)) :
  webViewRef_current h = true ->
  expoPushToken (service h) = None ->
  JSON_parse w raw = Some (Js.Object members) ->
  Js.lookup "type" members = Some (Js.Str "REQUEST_PUSH_TOKEN") ->
  exists token,
    completion (registerForPushNotifications w (service h)) = Js.Normal token
    /\ posted (events (handleBridgeRequest raw w h))
       = [tokenResponse (Js.field (Js.Object members) "requestId") token]
    /\ native_calls (events (handleBridgeRequest raw w h))
       = native_calls (events (registerForPushNotifications w (service h)))
    /\ http_posts (events (handleBridgeRequest raw w h))
       = http_posts (events (registerForPushNotifications w (service h)))
    /\ service (final (handleBridgeRequest raw w h))
       = final (registerForPushNotifications w (service h)).
Proof.
  intros R N J T.
  destruct (registerForPushNotifications_total w (service h)) as [token G].
  pose proof (registerForPushNotifications_posts_nothing w (service h)) as P.
  exists token. split; [ exact G | ].
  unfold handleBridgeRequest, withRequestGuard.
  unfold bridgeRequest, postToWeb, call, getExpoPushToken.
  unfold bind, try_catch, ask, get, emit, ret. cbn. rewrite J. cbn.
  rewrite (prop_Object _ _ _ T). eval_is_string. cbn. rewrite N. cbn.
  destruct (registerForPushNotifications w (service h)) as [c s' tr].
  cbn in G, P |- *. subst c. cbn. rewrite R. cbn.
  rewrite posted_app, native_calls_app, http_posts_app, P. cbn.
  rewrite !app_nil_r. repeat split.
Qed.

Lemma request_push_token_registers_when_cache_is_empty_witness :
  exists token,
    posted (events (handleBridgeRequest Sample.raw_request_token Sample.emulator
                      (Sample.bridge initial)))
    = [tokenResponse (Js.Str "r3") token].
Proof.
  destruct (request_push_token_registers_when_cache_is_empty
              Sample.raw_request_token Sample.emulator (Sample.bridge initial)
              [("type", Js.Str "REQUEST_PUSH_TOKEN");
               ("requestId", Js.Str "r3"); ("payload", Js.Null)]
              eq_refl eq_refl eq_refl eq_refl) as [token [_ [P _]]].
  exists token. exact P.
Defined.

Lemma bridgeRequest_frame (raw : string) (w : World) (h : State) :
  isLoading (final (bridgeRequest raw w h)) = isLoading h
  /\ isWebReady (final (bridgeRequest raw w h)) = isWebReady h
  /\ loadError (final (bridgeRequest raw w h)) = loadError h
  /\ webViewRef_current (final (bridgeRequest raw w h)) = webViewRef_current h
  /\ (expoPushToken (service (final (bridgeRequest raw w h)))
      = expoPushToken (service h)
      \/ (expoPushToken (service h) = None
          /\ exists parsed,
               JSON_parse w raw = Some parsed
               /\ Js.prop parsed "type" = Some (Js.Str "REQUEST_PUSH_TOKEN"))).
Proof.
  unfold bridgeRequest, postToWeb, call, getExpoPushToken.
  unfold bind, ask, get, emit, await, ret, throw. cbn.
  destruct (JSON_parse w raw) as [parsed|]; cbn; [ | tauto ].
  destruct (Js.prop parsed "type") as [type|] eqn:T; cbn; [ | tauto ].
  destruct (Js.is_string type "REQUEST_PUSH_TOKEN") eqn:I; cbn.
  { assert (T' : type = Js.Str "REQUEST_PUSH_TOKEN").
    { unfold Js.is_string in I. destruct type; try discriminate I.
      apply String.eqb_eq in I. subst. reflexivity. }
    subst type.
    destruct (expoPushToken (service h)) as [t|] eqn:N; cbn.
    - destruct (webViewRef_current h); cbn; rewrite N; tauto.
    - destruct (registerForPushNotifications w (service h)) as [[r|e] s' tr]; cbn;
        [ destruct (webViewRef_current h); cbn | ];
        repeat split; right;
        (split; [ reflexivity | exists parsed; split; [ reflexivity | exact T ] ]). }
  destruct (Js.is_string type "SEND_PUSH_VIA_BACKEND"); cbn.
  { destruct (toNotificationData w (Js.field parsed "payload")) as [d|e]; cbn; [ | tauto ].
    pose proof (sendPushNotificationViaBackend_final d w (service h)) as F.
    destruct (sendPushNotificationViaBackend d w (service h)) as [[[]|e] s' tr];
      cbn in F |- *; subst s'; [ destruct (webViewRef_current h); cbn | ]; tauto. }
  destruct (Js.is_string type "SEND_LOCAL_NOTIFICATION"); cbn;
    [ | destruct (Js.String_ type); cbn; tauto ].
  destruct (toNotificationData w (Js.field parsed "payload")) as [d|e]; cbn; [ | tauto ].
  pose proof (sendLocalNotification_run d w (service h)) as [C [F _]].
  destruct (sendLocalNotification d w (service h)) as [c s' tr].
  cbn in C, F |- *. subst c s'. destruct (webViewRef_current h); cbn; tauto.
Qed.

(** X13. Handling a message never changes the state of the component
    ([isLoading], [isWebReady], [loadError], the ref), and it changes the
    cached token only when the message is a REQUEST_PUSH_TOKEN that finds the
    cache empty. *)
Theorem handleBridgeRequest_keeps_the_component
    (raw : string) (w : World) (h : State) :
  isLoading (final (handleBridgeRequest raw w h)) = isLoading h
  /\ isWebReady (final (handleBridgeRequest raw w h)) = isWebReady h
  /\ loadError (final (handleBridgeRequest raw w h)) = loadError h
  /\ webViewRef_current (final (handleBridgeRequest raw w h)) = webViewRef_current h
  /\ (expoPushToken (service (final (handleBridgeRequest raw w h)))
      = expoPushToken (service h)
      \/ (expoPushToken (service h) = None
          /\ exists parsed,
               JSON_parse w raw = Some parsed
               /\ Js.prop parsed "type" = Some (Js.Str "REQUEST_PUSH_TOKEN"))).
Proof.
  assert (E : final (handleBridgeRequest raw w h) = final (bridgeRequest raw w h)).
  { unfold handleBridgeRequest, withRequestGuard.
    unfold bind at 1, ask at 1. cbn. unfold try_catch.
    destruct (bridgeRequest raw w h) as [[[]|e] h1 tr1]; cbn; [ reflexivity | ].
    unfold postToWeb, console, bind, get, emit. cbn.
    destruct (webViewRef_current h1); reflexivity. }
  rewrite E. apply bridgeRequest_frame.
Qed.

Ltac app_projections :=
  rewrite ?posted_app, ?native_calls_app, ?http_posts_app; cbn;
  rewrite ?app_nil_r.

(** X14. While the WebView is not mounted, a message is still carried out
    but its response is lost: [handleBridgeRequest] makes the same calls of
    the OS and of the backend and leaves the same token in the cache as with
    the WebView mounted, and posts nothing. *)
Theorem response_is_lost_without_a_webview (raw : string) (w : World) (h : State) :
  webViewRef_current h = false ->
  posted (events (handleBridgeRequest raw w h)) = []
  /\ native_calls (events (handleBridgeRequest raw w h))
     = native_calls (events (handleBridgeRequest raw w (withWebView true h)))
  /\ http_posts (events (handleBridgeRequest raw w h))
     = http_posts (events (handleBridgeRequest raw w (withWebView true h)))
  /\ service (final (handleBridgeRequest raw w h))
     = service (final (handleBridgeRequest raw w (withWebView true h))).
Proof.
  intro R.
  unfold handleBridgeRequest, withRequestGuard, parsedRequestId.
  unfold bridgeRequest, postToWeb, call, getExpoPushToken, console, withWebView.
  unfold bind, try_catch, ask, get, emit, await, ret, throw. cbn.
  destruct (JSON_parse w raw) as [parsed|]; cbn; rewrite ?R; cbn;
    [ | repeat split ].
  destruct (Js.prop parsed "type") as [type|]; cbn; rewrite ?R; cbn;
    [ | repeat split ].
  destruct (Js.is_string type "REQUEST_PUSH_TOKEN"); cbn.
  { destruct (expoPushToken (service h)) as [t|]; cbn; rewrite ?R; cbn;
      [ repeat split | ].
    pose proof (registerForPushNotifications_total w (service h)) as [r T].
    pose proof (registerForPushNotifications_posts_nothing w (service h)) as P.
    destruct (registerForPushNotifications w (service h)) as [c s' tr].
    cbn in T, P. subst c. cbn. rewrite ?R. cbn. app_projections. rewrite P.
    repeat split. }
  destruct (Js.is_string type "SEND_PUSH_VIA_BACKEND"); cbn.
  { destruct (toNotificationData w (Js.field parsed "payload")) as [d|e]; cbn;
      rewrite ?R; cbn; [ | repeat split ].
    pose proof (sendPushNotificationViaBackend_posts_nothing d w (service h)) as P.
    destruct (sendPushNotificationViaBackend d w (service h)) as [[[]|e] s' tr];
      cbn in P; cbn; rewrite ?R; cbn; app_projections; rewrite ?P; repeat split. }
  destruct (Js.is_string type "SEND_LOCAL_NOTIFICATION"); cbn; rewrite ?R; cbn;
    [ | destruct (Js.String_ type); cbn; rewrite ?R; cbn; repeat split ].
  destruct (toNotificationData w (Js.field parsed "payload")) as [d|e]; cbn;
    rewrite ?R; cbn; [ | repeat split ].
  pose proof (sendLocalNotification_run d w (service h)) as [C [_ [P _]]].
  destruct (sendLocalNotification d w (service h)) as [c s' tr].
  cbn in C, P. subst c. cbn. rewrite ?R. cbn. app_projections. rewrite P.
  repeat split.
Qed.

Lemma response_is_lost_without_a_webview_witness :
  posted (events (handleBridgeRequest Sample.raw_send_local
                    (Sample.world "token-A" Sample.accepted)
                    (Sample2.unmounted (Sample.registered "token-A")))) = []
  /\ native_calls (events (handleBridgeRequest Sample.raw_send_local
                             (Sample.world "token-A" Sample.accepted)
                             (Sample2.unmounted (Sample.registered "token-A"))))
     = [ScheduleNotification "T" "B" (Js.Object [])].
Proof.
  destruct (response_is_lost_without_a_webview Sample.raw_send_local
              (Sample.world "token-A" Sample.accepted)
              (Sample2.unmounted (Sample.registered "token-A")) eq_refl)
    as [P [N _]].
  split; [ exact P | rewrite N; reflexivity ].
Defined.

(** X15. A notification that fires while the WebView is mounted is
    forwarded as exactly one NOTIFICATION_RECEIVED message without
    [requestId].  Its payload has the five members [id], [title], [body],
    [data], [date]; a missing title or body is [null] and missing data is
    the empty object.  A NOTIFICATION_RESPONSE message carries the action
    and, as [notification], that same payload. *)
Theorem notification_is_forwarded_serialized
    (n : Notifications.Notification) (action date : string) (w : World) (h : State) :
  webViewRef_current h = true ->
  Notifications.date_toISOString n = Js.Normal date ->
  exists p,
    serializeNotification n = Js.Normal p
    /\ events (notificationReceived n w h)
       = [PostMessage {| type := "NOTIFICATION_RECEIVED"; requestId := Js.Undefined;
                         payload := p; error := None |}]
    /\ events (notificationResponseReceived
                 {| Notifications.actionIdentifier := action;
                    Notifications.notification := n |} w h)
       = [PostMessage {| type := "NOTIFICATION_RESPONSE"; requestId := Js.Undefined;
                         payload := Js.Object [("actionIdentifier", Js.Str action);
                                               ("notification", p)];
                         error := None |}]
    /\ Js.field p "id" = Js.Str (Notifications.identifier n)
    /\ Js.field p "title" = match Notifications.title n with
                            | Some t => Js.Str t
                            | None => Js.Null
                            end
    /\ Js.field p "body" = match Notifications.body n with
                           | Some b => Js.Str b
                           | None => Js.Null
                           end
    /\ Js.field p "data" = match Notifications.data n with
                           | Js.Undefined | Js.Null => Js.Object []
                           | d => d
                           end
    /\ Js.field p "date" = Js.Str date.
Proof.
  intros R D. eexists. split.
  - unfold serializeNotification. rewrite D. reflexivity.
  - unfold notificationReceived, notificationResponseReceived,
      serializeNotificationResponse, serializeNotification, postToWeb.
    unfold bind, get, emit, await, ret. cbn. rewrite D. cbn. rewrite R.
    repeat split;
      destruct (Notifications.title n), (Notifications.body n),
        (Notifications.data n); reflexivity.
Qed.

Lemma notification_is_forwarded_serialized_witness :
  exists p,
    events (notificationReceived
              (Sample2.notification None (Js.Normal "2026-01-01T00:00:00.000Z"))
              (Sample.world "token-A" Sample.accepted)
              (Sample.bridge initial))
    = [PostMessage {| type := "NOTIFICATION_RECEIVED"; requestId := Js.Undefined;
                      payload := p; error := None |}]
    /\ Js.field p "title" = Js.Null
    /\ Js.field p "data" = Js.Object [].
Proof.
  destruct (notification_is_forwarded_serialized
              (Sample2.notification None (Js.Normal "2026-01-01T00:00:00.000Z"))
              "tap" "2026-01-01T00:00:00.000Z"
              (Sample.world "token-A" Sample.accepted)
              (Sample.bridge initial) eq_refl eq_refl)
    as [p [_ [E [_ [_ [T [_ [D _]]]]]]]].
  exists p. split; [ exact E | split; [ exact T | exact D ] ].
Defined.

(** X16. The two listeners are not guarded as requests are: when the date of
    a notification cannot be converted, the listener throws that error and
    posts nothing; and a notification that fires while the WebView is not
    mounted is dropped without a trace. *)
Theorem listeners_are_not_guarded
    (n : Notifications.Notification) (action : string) (w : World) (h : State) :
  (forall e,
      Notifications.date_toISOString n = Js.Throw e ->
      notificationReceived n w h
      = {| completion := Js.Throw e; final := h; events := [] |}
      /\ notificationResponseReceived
           {| Notifications.actionIdentifier := action;
              Notifications.notification := n |} w h
         = {| completion := Js.Throw e; final := h; events := [] |})
  /\ (forall date,
        Notifications.date_toISOString n = Js.Normal date ->
        webViewRef_current h = false ->
        notificationReceived n w h
        = {| completion := Js.Normal tt; final := h; events := [] |}
        /\ notificationResponseReceived
             {| Notifications.actionIdentifier := action;
                Notifications.notification := n |} w h
           = {| completion := Js.Normal tt; final := h; events := [] |}).
Proof.
  unfold notificationReceived, notificationResponseReceived,
    serializeNotificationResponse, serializeNotification, postToWeb.
  unfold bind, get, emit, await, ret, throw. cbn.
  split.
  - intros e ->. cbn. split; reflexivity.
  - intros date -> R. cbn. rewrite R. split; reflexivity.
Qed.

Lemma listeners_are_not_guarded_witness :
  completion (notificationReceived
                (Sample2.notification (Some "Hello") (Js.Throw Sample2.invalid_date))
                (Sample.world "token-A" Sample.accepted)
                (Sample.bridge initial))
  = Js.Throw Sample2.invalid_date.
Proof.
  destruct (proj1 (listeners_are_not_guarded
                     (Sample2.notification (Some "Hello") (Js.Throw Sample2.invalid_date))
                     "tap" (Sample.world "token-A" Sample.accepted)
                     (Sample.bridge initial))
              Sample2.invalid_date eq_refl) as [E _].
  rewrite E. reflexivity.
Defined.

(** X17. The [data] that a send request hands to the OS or to the backend
    is always an object: the [data] member of the payload when that is an
    object (or an array), the empty object in every other case. *)
Theorem forwarded_data_is_always_an_object
    (w : World) (payload : Js.Value) (d : NotificationData) :
  toNotificationData w payload = Js.Normal d ->
  Js.is_object (data_or_empty (data d)) = true
  /\ (Js.is_object (Js.field payload "data") = true ->
      data_or_empty (data d) = Js.field payload "data")
  /\ (Js.is_object (Js.field payload "data") = false ->
      data_or_empty (data d) = Js.Object []).
Proof.
  unfold toNotificationData.
  destruct (Js.is_object payload && Js.has "title" payload && Js.has "body" payload)%bool;
    [ | discriminate ].
  destruct (coerce (Js.field payload "title")); [ | discriminate ].
  destruct (coerce (Js.field payload "body")); [ | discriminate ].
  intro E. injection E as <-. cbn [data]. unfold data_or_empty.
  destruct (Js.field payload "data"); cbn; repeat split; intros; discriminate.
Qed.

Lemma forwarded_data_is_always_an_object_witness :
  data_or_empty (data {| title := "T"; body := "B"; data := Js.Undefined |})
  = Js.Object [].
Proof.
  apply (forwarded_data_is_always_an_object
           (Sample.world "token-A" Sample.accepted) Sample.payload
           {| title := "T"; body := "B"; data := Js.Undefined |} eq_refl).
  reflexivity.
Defined.

Lemma onLoadEvent_LoadError (err : Js.Value) (w : World) (h : State) :
  exists m,
    onLoadEvent (LoadError err) w h
    = {| completion := Js.Normal tt;
         final := {| service := service h; isLoading := false;
                     isWebReady := isWebReady h; loadError := Some m;
                     webViewRef_current := negb (Js.truthy_string (Some m)) |};
         events := [] |}
    /\ (forall members ne d,
          err = Js.Object members ->
          Js.lookup "nativeEvent" members = Some ne ->
          Js.field ne "description" = Js.Str d -> m = d)
    /\ (Js.has "nativeEvent" err = false -> m = "Failed to load embedded web app").
Proof.
  unfold onLoadEvent, handleLoadError, commit, setIsLoading, setLoadError,
    readinessEffect.
  unfold bind, get, put, ret. cbn.
  rewrite Bool.eqb_reflx. cbn.
  eexists. split; [ reflexivity | ]. split.
  - intros members ne d -> L D. cbn. unfold Js.has. rewrite L.
    rewrite (field_Object _ _ _ L). rewrite D. reflexivity.
  - intros ->. rewrite Bool.andb_false_r. reflexivity.
Qed.

(** X18. After a load error the component shows the fallback screen with the
    description of the native event if that is a string, and with a fixed
    text when there is none; the WebView is unmounted and the overlay is
    gone.  An empty description is no error to the component: the WebView
    stays and no fallback is shown. *)
Theorem load_error_shows_the_fallback (err : Js.Value) (w : World) (h : State) :
  exists m,
    loadError (final (onLoadEvent (LoadError err) w h)) = Some m
    /\ (m <> "" ->
        render (final (onLoadEvent (LoadError err) w h))
        = {| fallback := Some m; webView := false; loadingOverlay := false |}
        /\ webViewRef_current (final (onLoadEvent (LoadError err) w h)) = false)
    /\ (m = "" ->
        render (final (onLoadEvent (LoadError err) w h))
        = {| fallback := None; webView := true; loadingOverlay := false |})
    /\ (forall members ne d,
          err = Js.Object members ->
          Js.lookup "nativeEvent" members = Some ne ->
          Js.field ne "description" = Js.Str d -> m = d)
    /\ (Js.has "nativeEvent" err = false -> m = "Failed to load embedded web app").
Proof.
  destruct (onLoadEvent_LoadError err w h) as [m [E [D F]]].
  exists m. rewrite E. cbn [final loadError]. split; [ reflexivity | ].
  split; [ | split; [ | split; [ exact D | exact F ] ] ].
  - intro N. unfold render. cbn [loadError isLoading webViewRef_current].
    rewrite (truthy_string_Some m N). split; reflexivity.
  - intros ->. reflexivity.
Qed.

Lemma load_error_shows_the_fallback_witness :
  render (final (onLoadEvent
                   (LoadError (Js.Object
                                 [("nativeEvent",
                                   Js.Object [("description", Js.Str "offline")])]))
                   (Sample.world "token-A" Sample.accepted)
                   (Sample.bridge initial)))
  = {| fallback := Some "offline"; webView := false; loadingOverlay := false |}.
Proof.
  destruct (load_error_shows_the_fallback
              (Js.Object [("nativeEvent", Js.Object [("description", Js.Str "offline")])])
              (Sample.world "token-A" Sample.accepted) (Sample.bridge initial))
    as [m [_ [V [_ [D _]]]]].
  assert (E : m = "offline")
    by (apply (D [("nativeEvent", Js.Object [("description", Js.Str "offline")])]
                 (Js.Object [("description", Js.Str "offline")]) "offline");
        reflexivity).
  subst m. apply V. discriminate.
Defined.

(** X19. The retry after a load error never calls [reload] on the WebView
    (there is none while the fallback is shown): the page comes back because
    the WebView is mounted again, under the loading overlay.  The readiness
    flag survives the error, so when it was set before, the load end of the
    retried page pushes no token. *)
Theorem retry_remounts_the_webview
    (err : Js.Value) (w : World) (h : State) (m : string) :
  loadError (final (onLoadEvent (LoadError err) w h)) = Some m ->
  m <> "" ->
  native_calls (events (onLoadEvents [LoadError err; Reload] w h)) = []
  /\ render (final (onLoadEvents [LoadError err; Reload] w h))
     = {| fallback := None; webView := true; loadingOverlay := true |}
  /\ webViewRef_current (final (onLoadEvents [LoadError err; Reload] w h)) = true
  /\ isWebReady (final (onLoadEvents [LoadError err; Reload] w h)) = isWebReady h
  /\ (isWebReady h = true ->
      posted (events (onLoadEvents [LoadError err; Reload; LoadEnd] w h)) = []).
Proof.
  intros L N.
  destruct (onLoadEvent_LoadError err w h) as [m' [E _]].
  rewrite E in L. cbn in L. injection L as ->.
  split; [ | split; [ | split; [ | split ] ] ].
  1-4: cbn [onLoadEvents]; unfold bind at 1; rewrite E;
       unfold onLoadEvent, reloadWebView, commit, setIsLoading, setLoadError,
         readinessEffect;
       unfold bind, get, put, emit, ret; cbn;
       rewrite ?(eqb_false_of_neq m "" N); cbn;
       rewrite ?Bool.eqb_reflx; cbn;
       rewrite ?(eqb_false_of_neq m "" N); reflexivity.
  - intro Ready. apply onLoadEvents_when_ready, Ready.
Qed.

Lemma retry_remounts_the_webview_witness :
  native_calls (events (onLoadEvents [LoadError Js.Null; Reload]
                          (Sample.world "token-A" Sample.accepted)
                          (Sample.bridge (Sample.registered "token-A")))) = [].
Proof.
  assert (N : "Failed to load embedded web app" <> "") by discriminate.
  apply (retry_remounts_the_webview Js.Null
           (Sample.world "token-A" Sample.accepted)
           (Sample.bridge (Sample.registered "token-A"))
           "Failed to load embedded web app" eq_refl N).
Defined.

(** X20. Load events never throw and never touch the singleton, and the
    readiness flag is never cleared: after any series of load events it is
    set exactly when it was set before or a load end is among them. *)
Theorem readiness_flag_is_never_cleared
    (es : list LoadEvent) (w : World) (h : State) :
  completion (onLoadEvents es w h) = Js.Normal tt
  /\ service (final (onLoadEvents es w h)) = service h
  /\ isWebReady (final (onLoadEvents es w h))
     = (isWebReady h || existsb isLoadEnd es)%bool
  /\ http_posts (events (onLoadEvents es w h)) = [].
Proof.
  revert h. induction es as [|e es IH]; intro h.
  - cbn. rewrite Bool.orb_false_r. repeat split.
  - destruct (onLoadEvent_run e w h) as [C [S [F _]]].
    assert (H0 : http_posts (events (onLoadEvent e w h)) = []).
    { destruct e; unfold_component; cbn; repeat (break_match; cbn); reflexivity. }
    cbn [onLoadEvents existsb]. rewrite (bind_normal _ _ w h tt C). cbn.
    destruct (IH (final (onLoadEvent e w h))) as [C' [S' [F' H']]].
    rewrite C', S', F', S, F, http_posts_app, H0, H'.
    rewrite Bool.orb_assoc. repeat split.
Qed.

(** X21. An empty string in the cache counts as a token in one place and
    as none in the others: REQUEST_PUSH_TOKEN answers with it and does not
    register, while the readiness handshake pushes nothing and
    [sendPushNotificationViaBackend] takes the token as missing. *)
Theorem empty_token_is_a_token_only_to_request_push_token
    (w : World) (h : State) :
  webViewRef_current h = true ->
  expoPushToken (service h) = Some "" ->
  (forall raw members,
      JSON_parse w raw = Some (Js.Object members) ->
      Js.lookup "type" members = Some (Js.Str "REQUEST_PUSH_TOKEN") ->
      events (handleBridgeRequest raw w h)
      = [PostMessage (tokenResponse (Js.field (Js.Object members) "requestId")
                        (Some ""))])
  /\ (forall es, posted (events ((mount ;; onLoadEvents es) w h)) = [])
  /\ (forall d,
        events (sendPushNotificationViaBackend d w (service h))
        = [Console console_log "No push token available to send to backend"]).
Proof.
  intros R T. split; [ | split ].
  - intros raw members J K.
    apply (handleBridgeRequest_cached_token raw w h members "" R T J K).
  - intro es. destruct (mount_run w h) as [C [S [F P]]].
    rewrite (bind_normal mount (fun _ => onLoadEvents es) w h tt C).
    cbn [events]. rewrite posted_app, P. cbn [app].
    rewrite (onLoadEvents_until_ready es w _ F). rewrite S, T. cbn.
    rewrite Bool.andb_false_r. reflexivity.
  - intro d. rewrite sendPushNotificationViaBackend_without_token
      by (rewrite T; reflexivity).
    reflexivity.
Qed.

Lemma empty_token_witness :
  posted (events ((mount ;; onLoadEvents [LoadEnd])
                    (Sample.world "token-A" Sample.accepted)
                    (Sample.bridge (Sample.registered "")))) = [].
Proof.
  apply (empty_token_is_a_token_only_to_request_push_token
           (Sample.world "token-A" Sample.accepted)
           (Sample.bridge (Sample.registered "")) eq_refl eq_refl).
Defined.

End WebViewBridgeMore.

(** ** The home screen *)

Module HomeScreenFacts.

Import NotificationService NotificationServiceFacts NotificationServiceMore.

Ltac unfold_screen :=
  unfold HomeScreen.sendPushNotification, HomeScreen.initializeNotifications,
    HomeScreen.cleanup, HomeScreen.clearNotifications,
    HomeScreen.notificationReceived, HomeScreen.notificationResponseReceived,
    HomeScreen.try_finally, HomeScreen.setIsLoading, HomeScreen.setExpoPushToken,
    HomeScreen.setNotifications, HomeScreen.setListeners, HomeScreen.Alert_alert,
    HomeScreen.call, addNotificationReceivedListener,
    addNotificationResponseReceivedListener, removeNotificationSubscription,
    console in *;
  unfold bind, try_catch, ask, get, put, emit, ret in *.

(** X22. The press handler of the screen never throws.  Without a token in
    the state of the screen it shows one alert and does nothing else.  With
    one it calls [sendPushNotificationViaBackend] once, with the title and
    body of the inputs; an error of that call is logged to the console and
    not shown (no alert); in both cases [isLoading] is false at the end. *)
Theorem press_ends_loading_and_hides_errors
    (timestamp : string) (w : World) (h : HomeScreen.State) :
  completion (HomeScreen.sendPushNotification timestamp w h) = Js.Normal tt
  /\ (Js.truthy_string (HomeScreen.expoPushToken h) = false ->
      events (HomeScreen.sendPushNotification timestamp w h) = []
      /\ HomeScreen.alerts (final (HomeScreen.sendPushNotification timestamp w h))
         = ("Error", "No push token available. Make sure you have permissions.")
           :: HomeScreen.alerts h
      /\ HomeScreen.isLoading (final (HomeScreen.sendPushNotification timestamp w h))
         = HomeScreen.isLoading h)
  /\ (Js.truthy_string (HomeScreen.expoPushToken h) = true ->
      HomeScreen.isLoading (final (HomeScreen.sendPushNotification timestamp w h))
      = false
      /\ HomeScreen.alerts (final (HomeScreen.sendPushNotification timestamp w h))
         = HomeScreen.alerts h
      /\ events (HomeScreen.sendPushNotification timestamp w h)
         = (events (sendPushNotificationViaBackend
                      {| title := HomeScreen.notificationTitle h;
                         body := HomeScreen.notificationBody h;
                         data := Js.Object [("type", Js.Str "push-backend");
                                            ("platform", Js.Str (Platform_OS w));
                                            ("timestamp", Js.Str timestamp)] |}
                      w (HomeScreen.service h))
            ++ match completion
                       (sendPushNotificationViaBackend
                          {| title := HomeScreen.notificationTitle h;
                             body := HomeScreen.notificationBody h;
                             data := Js.Object [("type", Js.Str "push-backend");
                                                ("platform", Js.Str (Platform_OS w));
                                                ("timestamp", Js.Str timestamp)] |}
                          w (HomeScreen.service h)) with
               | Js.Normal _ => []
               | Js.Throw _ =>
                   [Console console_error
                      "Error sending push notification via backend:"]
               end)%list).
Proof.
  unfold_screen. cbn.
  destruct (Js.truthy_string (HomeScreen.expoPushToken h)); cbn.
  - destruct (sendPushNotificationViaBackend _ w (HomeScreen.service h))
      as [[[]|e] s' tr]; cbn; rewrite ?app_nil_r;
      (split; [ reflexivity | ]); (split; [ discriminate | ]);
      intros _; repeat split.
  - split; [ reflexivity | ]. split; [ intros _; repeat split | discriminate ].
Qed.

Lemma press_ends_loading_and_hides_errors_witness :
  events (HomeScreen.sendPushNotification "2026-01-01T00:00:00.000Z"
            (Sample.world "token-A" Sample.accepted)
            (Sample2.screen (Sample.registered "token-A"))) = [].
Proof.
  apply (press_ends_loading_and_hides_errors "2026-01-01T00:00:00.000Z"
           (Sample.world "token-A" Sample.accepted)
           (Sample2.screen (Sample.registered "token-A"))).
  reflexivity.
Defined.

(** X23. The effect of the first render never throws and never shows its
    error alert.  It puts the result of the registration in the state of the
    screen, subscribes the two listeners after the registration, and its
    cleanup then removes exactly those two; a cleanup that runs with no
    listener subscribed removes nothing. *)
Theorem screen_effect_subscribes_and_cleans_up
    (w w' : World) (h : HomeScreen.State) :
  completion (HomeScreen.initializeNotifications w h) = Js.Normal tt
  /\ HomeScreen.alerts (final (HomeScreen.initializeNotifications w h))
     = HomeScreen.alerts h
  /\ Js.Normal (HomeScreen.expoPushToken (final (HomeScreen.initializeNotifications w h)))
     = completion (registerForPushNotifications w (HomeScreen.service h))
  /\ HomeScreen.service (final (HomeScreen.initializeNotifications w h))
     = final (registerForPushNotifications w (HomeScreen.service h))
  /\ native_calls (events (HomeScreen.initializeNotifications w h))
     = (native_calls (events (registerForPushNotifications w (HomeScreen.service h)))
        ++ [AddNotificationReceivedListener; AddNotificationResponseReceivedListener])%list
  /\ native_calls (events (HomeScreen.cleanup w'
                             (final (HomeScreen.initializeNotifications w h))))
     = [RemoveSubscription; RemoveSubscription]
  /\ (HomeScreen.notificationListener h = false ->
      HomeScreen.responseListener h = false ->
      events (HomeScreen.cleanup w' h) = []).
Proof.
  destruct (registerForPushNotifications_total w (HomeScreen.service h)) as [r T].
  unfold_screen. cbn.
  destruct (registerForPushNotifications w (HomeScreen.service h)) as [c s' tr].
  cbn in T. subst c. cbn.
  rewrite WebViewBridgeFacts.native_calls_app. cbn.
  repeat split. intros -> ->. reflexivity.
Qed.

Lemma screen_effect_subscribes_and_cleans_up_witness :
  events (HomeScreen.cleanup (Sample.world "token-A" Sample.accepted)
            (Sample2.screen initial)) = [].
Proof.
  apply (screen_effect_subscribes_and_cleans_up
           (Sample.world "token-A" Sample.accepted)
           (Sample.world "token-A" Sample.accepted)
           (Sample2.screen initial)); reflexivity.
Defined.

(** X24. The token the screen holds after its effect is the token in the
    cache of the service.  So a press of the enabled button after the effect
    passes both token guards: it issues exactly one POST to
    [/send-notification], with that token and the title and body of the
    inputs. *)
Theorem press_after_the_effect_reaches_the_backend
    (timestamp : string) (w w' : World) (h : HomeScreen.State) :
  HomeScreen.isLoading h = false ->
  HomeScreen.sendDisabled (final (HomeScreen.initializeNotifications w h)) = false ->
  exists t,
    HomeScreen.expoPushToken (final (HomeScreen.initializeNotifications w h)) = Some t
    /\ expoPushToken (HomeScreen.service (final (HomeScreen.initializeNotifications w h)))
       = Some t
    /\ http_posts (events (HomeScreen.sendPushNotification timestamp w'
                             (final (HomeScreen.initializeNotifications w h))))
       = [(sendNotificationUrl w',
           Js.Object [("token", Js.Str t);
                      ("title", Js.Str (HomeScreen.notificationTitle h));
                      ("body", Js.Str (HomeScreen.notificationBody h));
                      ("data", Js.Object [("type", Js.Str "push-backend");
                                          ("platform", Js.Str (Platform_OS w'));
                                          ("timestamp", Js.Str timestamp)])])].
Proof.
  intros L.
  destruct (registerForPushNotifications_total w (HomeScreen.service h)) as [r T].
  pose proof (fun t => registration_result w (HomeScreen.service h) t) as K.
  unfold HomeScreen.sendDisabled.
  unfold_screen. cbn.
  destruct (registerForPushNotifications w (HomeScreen.service h)) as [c s' tr].
  cbn in T, K |- *. subst c. cbn. rewrite L. cbn.
  destruct r as [t|]; cbn; [ | discriminate ].
  destruct (K t eq_refl) as [C _].
  destruct (String.eqb t "") eqn:E; cbn; [ discriminate | ]. intros _.
  exists t. split; [ reflexivity | ]. split; [ exact C | ].
  assert (P : Js.truthy_string (expoPushToken s') = true)
    by (rewrite C; cbn; rewrite E; reflexivity).
  pose proof (sendPushNotificationViaBackend_posts_once
                {| title := HomeScreen.notificationTitle h;
                   body := HomeScreen.notificationBody h;
                   data := Js.Object [("type", Js.Str "push-backend");
                                      ("platform", Js.Str (Platform_OS w'));
                                      ("timestamp", Js.Str timestamp)] |}
                w' s' P) as Q.
  unfold sendNotificationBody in Q. rewrite C in Q. cbn in Q.
  destruct (sendPushNotificationViaBackend _ w' s') as [[[]|e] s'' tr'];
    cbn in Q |- *; rewrite ?WebViewBridgeFacts.http_posts_app, Q; reflexivity.
Qed.

Lemma press_after_the_effect_reaches_the_backend_witness :
  exists t,
    HomeScreen.expoPushToken
      (final (HomeScreen.initializeNotifications
                (Sample.world "token-A" Sample.accepted) (Sample2.screen initial)))
    = Some t
    /\ expoPushToken
         (HomeScreen.service
            (final (HomeScreen.initializeNotifications
                      (Sample.world "token-A" Sample.accepted) (Sample2.screen initial))))
       = Some t.
Proof.
  destruct (press_after_the_effect_reaches_the_backend "2026-01-01T00:00:00.000Z"
              (Sample.world "token-A" Sample.accepted)
              (Sample.world "token-A" Sample.html_502)
              (Sample2.screen initial) eq_refl eq_refl) as [t [A [B _]]].
  exists t. split; [ exact A | exact B ].
Defined.

(** X25. The screen lists the notifications it received latest first, on
    top of those it had; receiving never throws and never touches the
    service or the alerts; clearing empties the list whatever was received. *)
Theorem received_notifications_are_listed_latest_first
    (ns : list Notifications.Notification) (w : World) (h : HomeScreen.State) :
  completion (receiveAll ns w h) = Js.Normal tt
  /\ HomeScreen.notifications (final (receiveAll ns w h))
     = (rev ns ++ HomeScreen.notifications h)%list
  /\ HomeScreen.service (final (receiveAll ns w h)) = HomeScreen.service h
  /\ HomeScreen.alerts (final (receiveAll ns w h)) = HomeScreen.alerts h
  /\ HomeScreen.notifications
       (final ((receiveAll ns ;; HomeScreen.clearNotifications) w h)) = [].
Proof.
  assert (A : forall ns h,
             completion (receiveAll ns w h) = Js.Normal tt
             /\ HomeScreen.notifications (final (receiveAll ns w h))
                = (rev ns ++ HomeScreen.notifications h)%list
             /\ HomeScreen.service (final (receiveAll ns w h)) = HomeScreen.service h
             /\ HomeScreen.alerts (final (receiveAll ns w h)) = HomeScreen.alerts h).
  { clear. induction ns as [|n ns IH]; intro h.
    - repeat split.
    - assert (C : completion (HomeScreen.notificationReceived n w h) = Js.Normal tt)
        by reflexivity.
      cbn [receiveAll]. rewrite (WebViewBridgeFacts.bind_normal _ _ w h tt C).
      cbn [completion final].
      destruct (IH (final (HomeScreen.notificationReceived n w h))) as [C' [N [S L]]].
      rewrite C', N, S, L. cbn. rewrite <- app_assoc. repeat split. }
  destruct (A ns h) as [C [N [S L]]].
  split; [ exact C | ]. split; [ exact N | ]. split; [ exact S | ].
  split; [ exact L | ].
  rewrite (WebViewBridgeFacts.bind_normal _ _ w h tt C). reflexivity.
Qed.

End HomeScreenFacts.
